(** * m101tools: the setup checker and the GPU monitor

    A shallow embedding of [m101tools/checker.py] and [m101tools/gpu.py].

    The two modules only talk to the outside: the interpreter, the file
    system, the process environment, the import machinery, [torch],
    [pynvml] and [dotenv].  The outside is a record of oracles ([World]);
    what the code itself changes is threaded as state: the checker object
    (its [results] dict), and the process ([os.environ], standard output
    and the log of [pynvml] calls).  Exceptions are values of an outcome
    type, [try]/[except] is a combinator. *)

From Stdlib Require Import ZArith List String Ascii Bool Lia.
From Stdlib Require Import SpecFloat DecimalString.
Import ListNotations.

Set Warnings "-register-all".

Open Scope string_scope.
Open Scope Z_scope.

(** ** Exceptions *)

(** The classes that matter to the code: [except ImportError] separates
    [ImportError] and its subclass [ModuleNotFoundError] from the rest;
    [except Exception] catches every class below.  Exits and interrupts
    ([SystemExit], [KeyboardInterrupt]), which are not [Exception]s, are
    not modelled. *)
Inductive exn_class : Type :=
  | ImportError
  | ModuleNotFoundError
  | OSError
  | ValueError
  | TypeError
  | RuntimeError
  | ZeroDivisionError
  | OverflowError
  | UnicodeDecodeError
  | UnicodeEncodeError
  | NVMLError.

Record exn : Type := mk_exn { exn_cls : exn_class; exn_msg : string }.

(** [isinstance(e, ImportError)] *)
Definition is_ImportError (e : exn) : bool :=
  match exn_cls e with
  | ImportError | ModuleNotFoundError => true
  | _ => false
  end.

(** [str(e)] *)
Definition str_exn (e : exn) : string := exn_msg e.

Inductive outcome (A : Type) : Type :=
  | Returned (a : A)
  | Raised (e : exn).
Arguments Returned {A} a.
Arguments Raised {A} e.

Definition returns {A} (o : outcome A) : bool :=
  match o with Returned _ => true | Raised _ => false end.

(** ** Statements that may raise, over a mutable state

    The state a statement reached when it raised is kept: Python objects
    are mutated in place and an exception does not roll them back. *)
Definition Py (S A : Type) : Type := S -> S * outcome A.

Definition ret {S A} (a : A) : Py S A := fun s => (s, Returned a).

Definition raise {S A} (e : exn) : Py S A := fun s => (s, Raised e).

Definition bind {S A B} (m : Py S A) (k : A -> Py S B) : Py S B :=
  fun s =>
    match m s with
    | (s', Returned a) => k a s'
    | (s', Raised e) => (s', Raised e)
    end.

(** The value or exception of a call into the outside. *)
Definition call {S A} (o : outcome A) : Py S A := fun s => (s, o).

(** [try: body except Exception as e: handler e] *)
Definition try_except {S A} (body : Py S A) (handler : exn -> Py S A) : Py S A :=
  fun s =>
    match body s with
    | (s', Returned a) => (s', Returned a)
    | (s', Raised e) => handler e s'
    end.

(** [try: body except <class>: handler e], the class given by its
    [isinstance] test; any other exception goes on propagating. *)
Definition try_except_if {S A} (cls : exn -> bool) (body : Py S A)
    (handler : exn -> Py S A) : Py S A :=
  fun s =>
    match body s with
    | (s', Returned a) => (s', Returned a)
    | (s', Raised e) => if cls e then handler e s' else (s', Raised e)
    end.

Declare Scope py_scope.
Delimit Scope py_scope with py.
Notation "x <- m ;; k" := (bind m (fun x => k))
  (at level 100, m at next level, right associativity) : py_scope.
Notation "m ;; k" := (bind m (fun _ => k))
  (at level 100, right associativity) : py_scope.
Open Scope py_scope.

(** ** Python values stored in the results mapping *)

Inductive pyval : Type :=
  | VNone
  | VBool (b : bool)
  | VInt (z : Z)
  | VFloat (f : spec_float)
  | VStr (s : string)
  | VList (l : list pyval)
  | VDict (d : list (string * pyval)).

(** Truth value of an object, as [if x] and [x or y] test it. *)
Definition truthy (v : pyval) : bool :=
  match v with
  | VNone => false
  | VBool b => b
  | VInt z => negb (z =? 0)
  | VFloat f => match f with S754_zero _ => false | _ => true end
  | VStr s => negb (s =? "")%string
  | VList l => match l with [] => false | _ => true end
  | VDict d => match d with [] => false | _ => true end
  end.

(** ** Dicts with string keys

    A [dict] keeps its keys in insertion order; assigning to a key that is
    there replaces the value in place, assigning to a new key appends. *)
Definition pydict : Type := list (string * pyval).

Fixpoint dict_get (k : string) (d : pydict) : option pyval :=
  match d with
  | [] => None
  | (k', v) :: d' => if (k =? k')%string then Some v else dict_get k d'
  end.

Fixpoint dict_set (k : string) (v : pyval) (d : pydict) : pydict :=
  match d with
  | [] => [(k, v)]
  | (k', v') :: d' =>
      if (k =? k')%string then (k', v) :: d' else (k', v') :: dict_set k v d'
  end.


Definition dict_has (k : string) (d : pydict) : bool :=
  match dict_get k d with Some _ => true | None => false end.

(** ** Floats

    A Python [float] is an IEEE 754 binary64 number: [spec_float] at
    precision 53 and maximal exponent 1024. *)
Definition prec : Z := 53.
Definition emax : Z := 1024.

Definition float_zero : spec_float := S754_zero false.

(** An integer as an unrounded binary number, mantissa times [2^0]. *)
Definition Z2SF (z : Z) : spec_float :=
  match z with
  | Z0 => S754_zero false
  | Zpos p => S754_finite false p 0
  | Zneg p => S754_finite true p 0
  end.

(** [a / b] on two [int]s: the quotient correctly rounded to a float. *)
Definition int_truediv (a b : Z) : outcome spec_float :=
  if b =? 0 then Raised (mk_exn ZeroDivisionError "division by zero")
  else
    match SFdiv prec emax (Z2SF a) (Z2SF b) with
    | S754_infinity _ =>
        Raised (mk_exn OverflowError "integer division result too large for a float")
    | r => Returned r
    end.

(** The integer nearest to [a * 2^e], ties to the even one ([0 <= a]). *)
Definition round_half_even (a e : Z) : Z :=
  if 0 <=? e then a * 2 ^ e
  else
    let d := 2 ^ (- e) in
    let q := a / d in
    match (2 * (a mod d)) ?= d with
    | Lt => q
    | Gt => q + 1
    | Eq => if Z.even q then q else q + 1
    end.

(** The number of units of [10^-ndigits] nearest to the magnitude of a
    finite float. *)
Definition decimal_units (m : positive) (e : Z) (ndigits : nat) : Z :=
  round_half_even (Zpos m * 10 ^ Z.of_nat ndigits) e.

(** The float nearest to [n * 10^-ndigits], with the sign [s]. *)
Definition float_of_decimal (s : bool) (n : Z) (ndigits : nat) : spec_float :=
  match n with
  | Z0 => S754_zero s
  | _ => SFdiv prec emax (Z2SF (cond_Zopp s n)) (Z2SF (10 ^ Z.of_nat ndigits))
  end.

(** [round(x, ndigits)] on a float, [0 <= ndigits]: the exact value of [x]
    is rounded to [ndigits] decimals, ties to even, and the decimal is
    converted back to the nearest float. *)
Definition py_round (x : spec_float) (ndigits : nat) : spec_float :=
  match x with
  | S754_finite s m e => float_of_decimal s (decimal_units m e ndigits) ndigits
  | _ => x
  end.

(** ** Strings *)

Definition str_of_nat (n : nat) : string := NilZero.string_of_uint (Nat.to_uint n).

Definition str_of_Z (z : Z) : string := NilZero.string_of_int (Z.to_int z).

Definition str_of_bool (b : bool) : string := if b then "True" else "False".

Fixpoint str_repeat (s : string) (n : nat) : string :=
  match n with
  | O => ""
  | S n' => s ++ str_repeat s n'
  end.

(** [sep.join(l)] *)
Fixpoint str_join (sep : string) (l : list string) : string :=
  match l with
  | [] => ""
  | [s] => s
  | s :: l' => s ++ sep ++ str_join sep l'
  end.

(** [s.zfill(width)] for a string of digits *)
Definition zfill (width : nat) (s : string) : string :=
  str_repeat "0" (width - String.length s) ++ s.

(** [f"{x:.2f}"] and the like: [ndigits] decimals after the point. *)
Definition format_fixed (x : spec_float) (ndigits : nat) : string :=
  let sign (s : bool) := if s then "-" else "" in
  let frac (n : Z) :=
    match ndigits with
    | O => ""
    | _ => "." ++ zfill ndigits (str_of_Z (n mod 10 ^ Z.of_nat ndigits))
    end in
  match x with
  | S754_nan => "nan"
  | S754_infinity s => sign s ++ "inf"
  | S754_zero s => sign s ++ "0" ++ frac 0
  | S754_finite s m e =>
      let n := decimal_units m e ndigits in
      sign s ++ str_of_Z (n / 10 ^ Z.of_nat ndigits) ++ frac n
  end.

(** [c.isspace()] for a character below 256. *)
Definition is_space (c : ascii) : bool :=
  let n := nat_of_ascii c in
  ((9 <=? n) && (n <=? 13) || (28 <=? n) && (n <=? 32)
   || (n =? 133) || (n =? 160))%nat.

(** [s.lstrip()], [s.rstrip()], [s.strip()] *)
Fixpoint lstrip (s : string) : string :=
  match s with
  | EmptyString => EmptyString
  | String c s' => if is_space c then lstrip s' else s
  end.

Fixpoint rstrip (s : string) : string :=
  match s with
  | EmptyString => EmptyString
  | String c s' =>
      match rstrip s' with
      | EmptyString => if is_space c then EmptyString else String c EmptyString
      | t => String c t
      end
  end.

Definition strip (s : string) : string := rstrip (lstrip s).

(** [s.startswith(p)] *)
Definition startswith (p s : string) : bool := String.prefix p s.

Definition LF : ascii := ascii_of_nat 10.
Definition CR : ascii := ascii_of_nat 13.

(** The lines a text file yields when it is iterated: [\r\n] and a lone
    [\r] read as [\n], every line keeps its newline, and the last line
    has none when the file does not end in one. *)
Fixpoint text_lines_from (cur : string) (s : string) : list string :=
  match s with
  | EmptyString => match cur with EmptyString => [] | _ => [cur] end
  | String c s' =>
      if Ascii.eqb c LF then (cur ++ String LF "") :: text_lines_from "" s'
      else if Ascii.eqb c CR then
        match s' with
        | String c' s'' =>
            if Ascii.eqb c' LF then (cur ++ String LF "") :: text_lines_from "" s''
            else (cur ++ String LF "") :: text_lines_from "" s'
        | EmptyString => (cur ++ String LF "") :: text_lines_from "" s'
        end
      else text_lines_from (cur ++ String c "") s'
  end.

Definition text_lines (content : string) : list string := text_lines_from "" content.

(** ** The outside *)

(** What the file system holds at a path: nothing (also a dangling link),
    a file that reads as text, or something that is there but cannot be
    opened or read as text (a directory, a file without read permission,
    bytes that do not decode). *)
Inductive fs_entry : Type :=
  | Missing
  | TextFile (content : string)
  | OpenFails (e : exn).

(** [os.environ] *)
Definition environ_t : Type := list (string * string).

(** What [import torch] gives. *)
Record Torch : Type := {
  torch_version : string;                        (* torch.__version__ *)
  cuda_is_available : outcome bool;              (* torch.cuda.is_available() *)
  cuda_version : option string;                  (* torch.version.cuda *)
  cuda_get_device_name : Z -> outcome string     (* torch.cuda.get_device_name(i) *)
}.

(** A device handle of the telemetry library. *)
Definition handle : Type := Z.

(** [c_nvmlMemory_t]: three byte counts, C [unsigned long long]. *)
Record MemoryInfo : Type := { mem_total : Z; mem_free : Z; mem_used : Z }.

(** [c_nvmlUtilization_t]: two percentages, C [unsigned int]. *)
Record Utilization : Type := { util_gpu : Z; util_memory : Z }.

(** A device name, [bytes] in old versions of the library, [str] in new. *)
Inductive nv_name : Type :=
  | NameBytes (raw : string)
  | NameStr (s : string).

(** The module [pynvml]. *)
Record Nvml : Type := {
  nvmlInit : outcome unit;
  nvmlDeviceGetHandleByIndex : Z -> outcome handle;
  nvmlDeviceGetName : handle -> outcome nv_name;
  nvmlDeviceGetMemoryInfo : handle -> outcome MemoryInfo;
  nvmlDeviceGetUtilizationRates : handle -> outcome Utilization
}.

(** The module [dotenv]: [load_dotenv(path)] rewrites the environment and
    returns a flag or raises; what it wrote before raising stays. *)
Record Dotenv : Type := {
  load_dotenv : string -> environ_t -> environ_t * outcome bool
}.

(** The outside, as the code asks it.  An import is what the [import]
    statement gives the code: the module, or the exception it raises;
    the code a module runs when it is first imported is taken to print
    nothing and to leave [os.environ] alone.  Text is made of characters
    below 256, which standard output can encode; for the two characters
    above 255 of the source, [stdout_encode] tells what the encoder of
    standard output does. *)
Record World : Type := {
  sys_version : string;                          (* sys.version *)
  fs : string -> fs_entry;
  import_torch : outcome Torch;                  (* import torch *)
  import_pynvml : outcome Nvml;                  (* import pynvml *)
  import_dotenv : outcome Dotenv;                (* from dotenv import load_dotenv *)
  import_module : string -> outcome unit;        (* importlib.import_module(name) *)
  bytes_decode : string -> outcome string;       (* raw.decode() *)
  stdout_encode : N -> outcome unit              (* the encoder of sys.stdout, on
                                                    a character above 255 *)
}.

(** [os.path.exists(path)]; the empty path names nothing. *)
Definition path_exists (w : World) (path : string) : bool :=
  if (path =? "")%string then false
  else
    match fs w path with
    | Missing => false
    | _ => true
    end.

(** [with open(path, "r") as f: [l for l in f]] *)
Definition read_text_lines (w : World) (path : string) : outcome (list string) :=
  match fs w path with
  | TextFile content => Returned (text_lines content)
  | OpenFails e => Raised e
  | Missing =>
      Raised (mk_exn OSError ("[Errno 2] No such file or directory: '" ++ path ++ "'"))
  end.

(** ** The process *)

Inductive nv_call : Type :=
  | CallInit
  | CallGetHandleByIndex (i : Z)
  | CallGetName (h : handle)
  | CallGetMemoryInfo (h : handle)
  | CallGetUtilizationRates (h : handle).

Record Process : Type := {
  environ : environ_t;
  stdout : list string;          (* the lines printed so far *)
  nv_calls : list nv_call        (* the telemetry calls made so far *)
}.

Definition IO (A : Type) : Type := Py Process A.

(** [print(line)] for a line of characters below 256.  Standard output
    is an open text stream whose encoding has these characters (UTF-8,
    Latin-1, a Windows code page); the line is written. *)
Definition print (line : string) : IO unit :=
  fun p => ({| environ := environ p; stdout := stdout p ++ [line];
               nv_calls := nv_calls p |}, Returned tt).

(** [print(line)] for a line that also has the character [c] above 255,
    which [line] holds in UTF-8.  The stream encodes the text before it
    writes any of it: where its encoding has no [c], the exception of
    the encoder ([UnicodeEncodeError]) is raised and nothing is
    written. *)
Definition print_wide (w : World) (c : N) (line : string) : IO unit :=
  call (stdout_encode w c) ;; print line.

(** The two characters above 255 in the literals of the source:
    U+2713 (check mark) and U+2717 (ballot x). *)
Definition CHECK_MARK : N := 10003.
Definition BALLOT_X : N := 10007.

(** A call into the telemetry library: logged, then its value or exception. *)
Definition nv {A} (c : nv_call) (o : outcome A) : IO A :=
  fun p => ({| environ := environ p; stdout := stdout p;
               nv_calls := nv_calls p ++ [c] |}, o).

(** [os.getenv(name, default)] *)
Fixpoint environ_get (name : string) (env : environ_t) : option string :=
  match env with
  | [] => None
  | (k, v) :: env' => if (name =? k)%string then Some v else environ_get name env'
  end.

Definition getenv (name default : string) : IO string :=
  fun p =>
    (p, Returned match environ_get name (environ p) with
                 | Some v => v
                 | None => default
                 end).

(** A call that rewrites the environment. *)
Definition with_environ {A} (f : environ_t -> environ_t * outcome A) : IO A :=
  fun p =>
    let '(env', o) := f (environ p) in
    ({| environ := env'; stdout := stdout p; nv_calls := nv_calls p |}, o).

(** ** [checker.py] *)

Module checker.

Record SetupChecker : Type := {
  env_path : string;
  model_path : option string;        (* [None] or a path *)
  dependencies : list string;
  results : pydict
}.

(** [dependencies or []] *)
Definition or_empty (dependencies : option (list string)) : list string :=
  match dependencies with
  | Some (d :: l) => d :: l
  | Some [] => []
  | None => []
  end.

(** [SetupChecker(env_path, model_path, dependencies)] *)
Definition init (env_path : string) (model_path : option string)
    (dependencies : option (list string)) : SetupChecker :=
  {| env_path := env_path;
     model_path := model_path;
     dependencies := or_empty dependencies;
     results := [] |}.

(** [SetupChecker()] *)
Definition init_default : SetupChecker := init ".env" None None.

(** A method runs on the checker object and the process. *)
Definition Meth (A : Type) : Type := Py (SetupChecker * Process) A.

Definition io {A} (m : IO A) : Meth A :=
  fun s =>
    let '(p', o) := m (snd s) in ((fst s, p'), o).

Definition self : Meth SetupChecker := fun s => (s, Returned (fst s)).

(** [self.results[key] = v] *)
Definition set_result (key : string) (v : pyval) : Meth unit :=
  fun s =>
    let c := fst s in
    (({| env_path := env_path c; model_path := model_path c;
         dependencies := dependencies c;
         results := dict_set key v (results c) |}, snd s), Returned tt).

Definition check_python (w : World) : Meth unit :=
  set_result "python" (VStr (sys_version w)) ;;
  io (print ("Python version: " ++ sys_version w)).

Definition str_of_option (o : option string) : string :=
  match o with Some s => s | None => "None" end.

Definition val_of_option (o : option string) : pyval :=
  match o with Some s => VStr s | None => VNone end.

(** The [try] block of [check_pytorch]. *)
Definition pytorch_try (w : World) : Meth unit :=
    (torch <- call (import_torch w) ;;
     avail <- call (cuda_is_available torch) ;;
     avail' <- call (cuda_is_available torch) ;;
     gpu_model <- (if avail'
                   then (name <- call (cuda_get_device_name torch 0) ;; ret (Some name))
                   else ret None) ;;
     set_result "pytorch"
       (VDict [("version", VStr (torch_version torch));
               ("cuda_available", VBool avail);
               ("cuda_version", val_of_option (cuda_version torch));
               ("gpu_model", val_of_option gpu_model)]) ;;
     io (print ("PyTorch version: " ++ torch_version torch)) ;;
     io (print ("CUDA available: " ++ str_of_bool avail)) ;;
     io (print ("CUDA version: " ++ str_of_option (cuda_version torch))) ;;
     if truthy (val_of_option gpu_model)
     then io (print ("GPU model: " ++ str_of_option gpu_model))
     else ret tt).

Definition check_pytorch (w : World) : Meth unit :=
  try_except (pytorch_try w)
    (fun e =>
       set_result "pytorch" (VDict [("error", VStr (str_exn e))]) ;;
       io (print ("PyTorch error: " ++ str_exn e))).

(** The [try] block of [check_gpu_memory]. *)
Definition gpu_memory_try (w : World) (device_index : Z) : Meth unit :=
    (nvml <- call (import_pynvml w) ;;
     io (nv CallInit (nvmlInit nvml)) ;;
     h <- io (nv (CallGetHandleByIndex device_index)
                 (nvmlDeviceGetHandleByIndex nvml device_index)) ;;
     mem_info <- io (nv (CallGetMemoryInfo h) (nvmlDeviceGetMemoryInfo nvml h)) ;;
     free_gb <- call (int_truediv (mem_free mem_info) (1024 ^ 3)) ;;
     total_gb <- call (int_truediv (mem_total mem_info) (1024 ^ 3)) ;;
     set_result "gpu_memory"
       (VDict [("free_gb", VFloat free_gb); ("total_gb", VFloat total_gb)]) ;;
     io (print ("GPU memory: " ++ format_fixed free_gb 2 ++ " / "
                ++ format_fixed total_gb 2 ++ " GB free"))).

Definition check_gpu_memory (w : World) (device_index : Z) : Meth unit :=
  try_except (gpu_memory_try w device_index)
    (fun e =>
       set_result "gpu_memory" (VDict [("error", VStr (str_exn e))]) ;;
       io (print ("GPU memory error: " ++ str_exn e))).

(** [l.strip() and not l.strip().startswith("#")] *)
Definition keep_line (l : string) : bool :=
  negb (strip l =? "")%string && negb (startswith "#" (strip l)).

Definition check_env (w : World) : Meth unit :=
  c <- self ;;
  if path_exists w (env_path c) then
    f <- call (read_text_lines w (env_path c)) ;;
    let lines := filter keep_line f in
    set_result "env"
      (VDict [("found", VBool true); ("count", VInt (Z.of_nat (List.length lines)))]) ;;
    io (print ("Env variables found: " ++ str_of_nat (List.length lines) ++ " entries"))
  else
    set_result "env" (VDict [("found", VBool false)]) ;;
    io (print "Unable to reach environment variables").

(** The [try] block of [check_dotenv]. *)
Definition dotenv_try (w : World) : Meth unit :=
    (dotenv <- call (import_dotenv w) ;;
     c <- self ;;
     io (with_environ (load_dotenv dotenv (env_path c))) ;;
     set_result "dotenv" (VDict [("loaded", VBool true)]) ;;
     io (print "Dotenv loaded successfully")).

Definition check_dotenv (w : World) : Meth unit :=
  try_except (dotenv_try w)
    (fun e =>
       set_result "dotenv" (VDict [("error", VStr (str_exn e))]) ;;
       io (print ("Dotenv error: " ++ str_exn e))).

(** [self.model_path or os.getenv("MODEL_PATH", "")]: the environment is
    read only when the left operand is [None] or empty. *)
Definition resolve_model_path : Meth string :=
  c <- self ;;
  match model_path c with
  | Some p => if truthy (VStr p) then ret p else io (getenv "MODEL_PATH" "")
  | None => io (getenv "MODEL_PATH" "")
  end.

Definition check_model_path (w : World) : Meth unit :=
  path <- resolve_model_path ;;
  if truthy (VStr path) && path_exists w path then
    set_result "model" (VDict [("found", VBool true); ("path", VStr path)]) ;;
    io (print ("Model found: " ++ path))
  else
    set_result "model" (VDict [("found", VBool false); ("path", VStr path)]) ;;
    io (print ("Model not found: " ++ path)).

(** The loop of [check_dependencies], [missing] being the list built so
    far. *)
Fixpoint probe_dependencies (w : World) (deps : list string)
    (missing : list string) : Meth (list string) :=
  match deps with
  | [] => ret missing
  | dep :: deps' =>
      missing' <- try_except_if is_ImportError
                    (call (import_module w dep) ;; ret missing)
                    (fun _ => ret (missing ++ [dep])%list) ;;
      probe_dependencies w deps' missing'
  end.

Definition check_dependencies (w : World) : Meth unit :=
  c <- self ;;
  missing <- probe_dependencies w (dependencies c) [] ;;
  set_result "dependencies" (VDict [("missing", VList (map VStr missing))]) ;;
  if truthy (VList (map VStr missing))
  then io (print_wide w BALLOT_X ("Dependencies: ✗ missing: " ++ str_join ", " missing))
  else io (print_wide w CHECK_MARK "Dependencies: ✓ All installed").

Definition banner : string := str_repeat "=" 42.

Definition run_all (w : World) : Meth pydict :=
  io (print banner) ;;
  io (print "Server setup verification") ;;
  io (print banner) ;;
  check_python w ;;
  check_pytorch w ;;
  check_gpu_memory w 0 ;;
  check_env w ;;
  check_dotenv w ;;
  check_model_path w ;;
  c <- self ;;
  (if truthy (VList (map VStr (dependencies c)))
   then check_dependencies w
   else ret tt) ;;
  io (print banner) ;;
  io (print "End of checks") ;;
  io (print banner) ;;
  c' <- self ;;
  ret (results c').

(** The seven check operations, and the key each one writes. *)
Inductive check : Type :=
  | CheckPython
  | CheckPytorch
  | CheckGpuMemory (device_index : Z)
  | CheckEnv
  | CheckDotenv
  | CheckModelPath
  | CheckDependencies.

Definition run_check (w : World) (op : check) : Meth unit :=
  match op with
  | CheckPython => check_python w
  | CheckPytorch => check_pytorch w
  | CheckGpuMemory i => check_gpu_memory w i
  | CheckEnv => check_env w
  | CheckDotenv => check_dotenv w
  | CheckModelPath => check_model_path w
  | CheckDependencies => check_dependencies w
  end.

Definition check_key (op : check) : string :=
  match op with
  | CheckPython => "python"
  | CheckPytorch => "pytorch"
  | CheckGpuMemory _ => "gpu_memory"
  | CheckEnv => "env"
  | CheckDotenv => "dotenv"
  | CheckModelPath => "model"
  | CheckDependencies => "dependencies"
  end.

End checker.

(** ** [gpu.py]

    The module imports [pynvml] when it is loaded; its functions exist
    only where that import succeeded, and take the module as [nvml]. *)

Module gpu.

Definition init (w : World) (nvml : Nvml) : IO (option handle) :=
  try_except
    (nv CallInit (nvmlInit nvml) ;;
     h <- nv (CallGetHandleByIndex 0) (nvmlDeviceGetHandleByIndex nvml 0) ;;
     raw_name <- nv (CallGetName h) (nvmlDeviceGetName nvml h) ;;
     gpu_name <- match raw_name with
                 | NameBytes raw => call (bytes_decode w raw)
                 | NameStr s => ret s
                 end ;;
     print ("[GPU] Using " ++ gpu_name) ;;
     ret (Some h))
    (fun e =>
       print ("[WARNING] GPU monitoring is not available: " ++ str_exn e) ;;
       ret None).

Definition memory (nvml : Nvml) (h : option handle) : IO pyval :=
  match h with
  | None => ret (VFloat float_zero)
  | Some h =>
      try_except
        (mem_info <- nv (CallGetMemoryInfo h) (nvmlDeviceGetMemoryInfo nvml h) ;;
         used_gb <- call (int_truediv (mem_used mem_info) (1024 ^ 3)) ;;
         ret (VFloat (py_round used_gb 2)))
        (fun e =>
           print ("[WARNING] Failed to get GPU memory: " ++ str_exn e) ;;
           ret (VFloat float_zero))
  end.

Definition utilization (nvml : Nvml) (h : option handle) : IO pyval :=
  match h with
  | None => ret (VFloat float_zero)
  | Some h =>
      try_except
        (util <- nv (CallGetUtilizationRates h)
                    (nvmlDeviceGetUtilizationRates nvml h) ;;
         ret (VInt (util_gpu util)))
        (fun _ => ret (VFloat float_zero))
  end.

End gpu.

(** ** A sample machine

    One GPU with 24 GiB, [torch], [pynvml] and [dotenv] installed, a
    configuration file [.env] of two entries and a comment, a model
    directory, and a second configuration file that is there but cannot
    be read. *)

Definition nl : string := String LF "".

Definition sample_env_file : string :=
  "MODEL_PATH=/models/whisper" ++ nl ++ "# local settings" ++ nl ++ "PORT=8000" ++ nl.

Definition sample_fs (path : string) : fs_entry :=
  if (path =? ".env")%string then TextFile sample_env_file
  else if (path =? "/models/whisper")%string then
    OpenFails (mk_exn OSError "[Errno 21] Is a directory: '/models/whisper'")
  else if (path =? "/etc/app/locked.env")%string then
    OpenFails (mk_exn OSError "[Errno 13] Permission denied: '/etc/app/locked.env'")
  else Missing.

Definition sample_torch : Torch :=
  {| torch_version := "2.1.0+cu121";
     cuda_is_available := Returned true;
     cuda_version := Some "12.1";
     cuda_get_device_name := fun _ => Returned "NVIDIA GeForce RTX 3090" |}.

Definition sample_nvml : Nvml :=
  {| nvmlInit := Returned tt;
     nvmlDeviceGetHandleByIndex := fun i =>
       if i =? 0 then Returned 1
       else Raised (mk_exn NVMLError "Invalid Argument");
     nvmlDeviceGetName := fun h =>
       if h =? 1 then Returned (NameStr "NVIDIA GeForce RTX 3090")
       else Raised (mk_exn NVMLError "Invalid Argument");
     nvmlDeviceGetMemoryInfo := fun h =>
       if h =? 1 then
         Returned {| mem_total := 25769803776; mem_free := 17255319142;
                     mem_used := 8514484634 |}
       else Raised (mk_exn NVMLError "Invalid Argument");
     nvmlDeviceGetUtilizationRates := fun h =>
       if h =? 1 then Returned {| util_gpu := 37; util_memory := 12 |}
       else Raised (mk_exn NVMLError "Invalid Argument") |}.

(** [load_dotenv] of the sample machine: it knows the one file, and sets
    [MODEL_PATH] where the environment has none. *)
Definition sample_dotenv : Dotenv :=
  {| load_dotenv := fun path env =>
       if (path =? ".env")%string then
         match environ_get "MODEL_PATH" env with
         | Some _ => (env, Returned true)
         | None => ((env ++ [("MODEL_PATH", "/models/whisper")])%list, Returned true)
         end
       else (env, Returned false) |}.

Definition sample_import (name : string) : outcome unit :=
  if (name =? "")%string then Raised (mk_exn ValueError "Empty module name")
  else if (name =? "fastapi")%string then Returned tt
  else if (name =? "uvicorn")%string then Returned tt
  else if (name =? "faster_whisper")%string then
    Raised (mk_exn OSError "libcudnn_ops_infer.so.8: cannot open shared object file")
  else Raised (mk_exn ModuleNotFoundError ("No module named '" ++ name ++ "'")).

Definition sample_world : World :=
  {| sys_version := "3.11.4 (main, Jun  7 2023, 10:13:09) [GCC 12.2.0]";
     fs := sample_fs;
     import_torch := Returned sample_torch;
     import_pynvml := Returned sample_nvml;
     import_dotenv := Returned sample_dotenv;
     import_module := sample_import;
     bytes_decode := fun raw => Returned raw;
     stdout_encode := fun _ => Returned tt |}.

(** The same machine without GPU libraries. *)
Definition bare_world : World :=
  {| sys_version := sys_version sample_world;
     fs := sample_fs;
     import_torch := Raised (mk_exn ModuleNotFoundError "No module named 'torch'");
     import_pynvml := Raised (mk_exn ModuleNotFoundError "No module named 'pynvml'");
     import_dotenv := Raised (mk_exn ModuleNotFoundError "No module named 'dotenv'");
     import_module := sample_import;
     bytes_decode := fun raw => Returned raw;
     stdout_encode := fun _ => Returned tt |}.

(** The sample machine with its output sent to a stream in the Windows
    code page 1252, which has neither of the two marks. *)
Definition cp1252_error : exn :=
  mk_exn UnicodeEncodeError
    "'charmap' codec can't encode character: character maps to <undefined>".

Definition cp1252_encode (c : N) : outcome unit := Raised cp1252_error.

Definition cp1252_world : World :=
  {| sys_version := sys_version sample_world;
     fs := sample_fs;
     import_torch := Returned sample_torch;
     import_pynvml := Returned sample_nvml;
     import_dotenv := Returned sample_dotenv;
     import_module := sample_import;
     bytes_decode := fun raw => Returned raw;
     stdout_encode := cp1252_encode |}.

Definition fresh_process : Process :=
  {| environ := []; stdout := []; nv_calls := [] |}.

(** ** Notions the statements use *)

(** The state a statement leaves, whether it returned or raised. *)
Definition state_after {S A} (m : Py S A) (s : S) : S := fst (m s).

Definition outcome_of {S A} (m : Py S A) (s : S) : outcome A := snd (m s).

(** The results mapping of a checker state. *)
Definition results_of (s : checker.SetupChecker * Process) : pydict :=
  checker.results (fst s).

(** The entry a guarded check records for a caught exception. *)
Definition error_entry (e : exn) : pyval := VDict [("error", VStr (str_exn e))].

(** The first word of the line a guarded check prints for a caught
    exception. *)
Definition error_label (op : checker.check) : string :=
  match op with
  | checker.CheckPytorch => "PyTorch error: "
  | checker.CheckGpuMemory _ => "GPU memory error: "
  | checker.CheckDotenv => "Dotenv error: "
  | _ => ""
  end.

(** The [try] block of a check that has one. *)
Definition try_block (w : World) (op : checker.check) : option (checker.Meth unit) :=
  match op with
  | checker.CheckPytorch => Some (checker.pytorch_try w)
  | checker.CheckGpuMemory i => Some (checker.gpu_memory_try w i)
  | checker.CheckDotenv => Some (checker.dotenv_try w)
  | _ => None
  end.

(** A checker state after [key] was assigned [v] and [line] was printed. *)
Definition recorded (key : string) (v : pyval) (line : string)
    (s : checker.SetupChecker * Process) : checker.SetupChecker * Process :=
  ({| checker.env_path := checker.env_path (fst s);
      checker.model_path := checker.model_path (fst s);
      checker.dependencies := checker.dependencies (fst s);
      checker.results := dict_set key v (results_of s) |},
   {| environ := environ (snd s);
      stdout := stdout (snd s) ++ [line];
      nv_calls := nv_calls (snd s) |}).

(** A checker state after [key] was assigned [v], with nothing printed. *)
Definition assigned (key : string) (v : pyval)
    (s : checker.SetupChecker * Process) : checker.SetupChecker * Process :=
  ({| checker.env_path := checker.env_path (fst s);
      checker.model_path := checker.model_path (fst s);
      checker.dependencies := checker.dependencies (fst s);
      checker.results := dict_set key v (results_of s) |},
   snd s).

(** An import that returns, or raises [ImportError]: the two cases
    [check_dependencies] tells apart. *)
Definition import_settled (w : World) (name : string) : bool :=
  match import_module w name with
  | Returned _ => true
  | Raised e => is_ImportError e
  end.

(** The import of [name] fails. *)
Definition import_fails (w : World) (name : string) : bool :=
  negb (returns (import_module w name)).

(** The configured file can be checked: it is absent, or it reads as
    text. *)
Definition env_checkable (w : World) (path : string) : bool :=
  match fs w path with
  | OpenFails _ => negb (path_exists w path)
  | _ => true
  end.

(** The checks [run_all] makes, in its order. *)
Definition checks_of (dependencies : list string) : list checker.check :=
  [checker.CheckPython; checker.CheckPytorch; checker.CheckGpuMemory 0;
   checker.CheckEnv; checker.CheckDotenv; checker.CheckModelPath]
  ++ match dependencies with
     | [] => []
     | _ => [checker.CheckDependencies]
     end.

(** Checks run one after the other; an exception ends the run. *)
Fixpoint run_checks (w : World) (ops : list checker.check) : checker.Meth unit :=
  match ops with
  | [] => ret tt
  | op :: ops' => checker.run_check w op ;; run_checks w ops'
  end.

(** The first character of a line that is not white space. *)
Fixpoint first_visible (l : string) : option ascii :=
  match l with
  | EmptyString => None
  | String c l' => if is_space c then first_visible l' else Some c
  end.

(** A line that is not blank and is not a comment. *)
Definition is_data_line (l : string) : bool :=
  match first_visible l with
  | Some c => negb (Ascii.eqb c "#")
  | None => false
  end.

(** The answer of [load_dotenv] does not change when it is asked again
    in the environment it has written. *)
Definition dotenv_settled (w : World) : Prop :=
  forall d path env,
    import_dotenv w = Returned d ->
    snd (load_dotenv d path (fst (load_dotenv d path env)))
    = snd (load_dotenv d path env).

(** A constructor argument [dependencies] as the object it is. *)
Definition val_of_dependencies (d : option (list string)) : pyval :=
  match d with
  | None => VNone
  | Some l => VList (map VStr l)
  end.

(** The exact value of a finite non-negative float [m * 2^e] is the
    fraction [num / den]. *)
Definition float_is_fraction (x : spec_float) (num den : Z) : Prop :=
  match x with
  | S754_zero _ => num = 0
  | S754_finite false m e =>
      if 0 <=? e then Zpos m * 2 ^ e * den = num
      else Zpos m * den = num * 2 ^ (- e)
  | _ => False
  end.

(** The character above 255 of the line [check_dependencies] prints. *)
Definition dependencies_mark (missing : list string) : N :=
  match missing with
  | [] => CHECK_MARK
  | _ => BALLOT_X
  end.

(** Standard output can encode the line [check_dependencies] prints for
    the names [deps]: the check mark when none of them is missing, the
    ballot x otherwise. *)
Definition report_encodable (w : World) (deps : list string) : bool :=
  returns (stdout_encode w (dependencies_mark (filter (import_fails w) deps))).

(** What a check needs of the outside to come to its end: the
    configuration file absent or readable for [check_env]; every import
    returning or raising [ImportError], and a standard output that can
    encode the mark of the line, for [check_dependencies]; nothing for
    the others. *)
Definition check_settled (w : World) (op : checker.check)
    (s : checker.SetupChecker * Process) : bool :=
  match op with
  | checker.CheckEnv => env_checkable w (checker.env_path (fst s))
  | checker.CheckDependencies =>
      forallb (import_settled w) (checker.dependencies (fst s))
      && report_encodable w (checker.dependencies (fst s))
  | _ => true
  end.

(** The configuration of a checker. *)
Definition config_of (s : checker.SetupChecker * Process)
    : string * option string * list string :=
  (checker.env_path (fst s), checker.model_path (fst s),
   checker.dependencies (fst s)).

(** The path [check_model_path] looks at. *)
Definition resolved_path (s : checker.SetupChecker * Process) : string :=
  let from_env := match environ_get "MODEL_PATH" (environ (snd s)) with
                  | Some v => v
                  | None => ""
                  end in
  match checker.model_path (fst s) with
  | Some p => if (p =? "")%string then from_env else p
  | None => from_env
  end.

(** The line [check_dependencies] prints. *)
Definition dependencies_line (missing : list string) : string :=
  match missing with
  | [] => "Dependencies: ✓ All installed"
  | _ => "Dependencies: ✗ missing: " ++ str_join ", " missing
  end.

(** The lines [run_all] prints before the checks and after them. *)
Definition run_all_header : IO unit :=
  print checker.banner ;; print "Server setup verification" ;; print checker.banner.

Definition run_all_footer : IO unit :=
  print checker.banner ;; print "End of checks" ;; print checker.banner.


(** The process after one more telemetry call, and after one more
    printed line. *)
Definition logged (c : nv_call) (p : Process) : Process :=
  {| environ := environ p; stdout := stdout p; nv_calls := nv_calls p ++ [c] |}.

Definition printed (line : string) (p : Process) : Process :=
  {| environ := environ p; stdout := stdout p ++ [line]; nv_calls := nv_calls p |}.

(** Sample checker states. *)
Definition locked_checker : checker.SetupChecker :=
  checker.init "/etc/app/locked.env" None None.

Definition broken_dep_checker : checker.SetupChecker :=
  checker.init ".env" None (Some ["fastapi"; "faster_whisper"]).

Definition empty_path_checker : checker.SetupChecker :=
  checker.init ".env" (Some "") None.

Definition model_env_process : Process :=
  {| environ := [("MODEL_PATH", "/models/whisper")]; stdout := []; nv_calls := [] |}.

(** ** Notions of the further properties *)

(** The text of a device name: [bytes] are decoded, a [str] is taken as
    it is. *)
Definition name_text (w : World) (n : nv_name) : outcome string :=
  match n with
  | NameBytes raw => bytes_decode w raw
  | NameStr s => Returned s
  end.


(** [bool(entry.get(key))] for an entry of the results mapping. *)
Definition entry_flag (key : string) (entry : pyval) : bool :=
  match entry with
  | VDict d => match dict_get key d with
               | Some v => truthy v
               | None => false
               end
  | _ => false
  end.

(** A string of white space only. *)
Fixpoint all_space (s : string) : bool :=
  match s with
  | EmptyString => true
  | String c s' => is_space c && all_space s'
  end.

(** The lines a statement adds to the output of the state it starts
    in. *)
Definition printed_by {A} (m : checker.Meth A)
    (s : checker.SetupChecker * Process) : list string :=
  skipn (List.length (stdout (snd s))) (stdout (snd (state_after m s))).

(** A checker with one dependency, which is installed. *)
Definition one_dep_checker : checker.SetupChecker :=
  checker.init ".env" None (Some ["fastapi"]).

(** A telemetry library whose one device is idle. *)
Definition idle_nvml : Nvml :=
  {| nvmlInit := Returned tt;
     nvmlDeviceGetHandleByIndex := fun _ => Returned 1;
     nvmlDeviceGetName := fun _ => Returned (NameStr "idle");
     nvmlDeviceGetMemoryInfo := fun _ =>
       Returned {| mem_total := 25769803776; mem_free := 25764803776;
                   mem_used := 5000000 |};
     nvmlDeviceGetUtilizationRates := fun _ =>
       Returned {| util_gpu := 0; util_memory := 0 |} |}.

(** * Properties *)

(** ** Dicts *)

Lemma dict_get_set_same (k : string) (v : pyval) (d : pydict) :
  dict_get k (dict_set k v d) = Some v.
Proof.
  induction d as [|[k' v'] d IH]; simpl.
  - now rewrite String.eqb_refl.
  - destruct (k =? k')%string eqn:E; simpl; rewrite E; auto.
Qed.


Lemma dict_set_set (k : string) (v v' : pyval) (d : pydict) :
  dict_set k v' (dict_set k v d) = dict_set k v' d.
Proof.
  induction d as [|[k0 v0] d IH]; simpl.
  - now rewrite String.eqb_refl.
  - destruct (k =? k0)%string eqn:E; simpl; rewrite E; auto.
    now rewrite IH.
Qed.




(** ** What each check does to the state *)

Import checker.

Ltac py_unfold :=
  unfold state_after, outcome_of, run_check, check_python, check_pytorch,
    check_gpu_memory, check_env, check_dotenv, check_model_path,
    check_dependencies, resolve_model_path, pytorch_try, gpu_memory_try,
    dotenv_try, try_except, try_except_if, bind, call, ret, raise, io,
    set_result, self, print_wide, print, nv, getenv, with_environ, recorded,
    assigned, results_of
    in *;
  cbn [fst snd] in *.

Ltac py_cases :=
  repeat match goal with
         | |- context [match ?x with _ => _ end] =>
             match type of x with
             | outcome _ => destruct x as [?|?] eqn:?
             | bool => destruct x eqn:?
             | unit => destruct x
             end; cbn [fst snd] in *
         | |- context [load_dotenv ?d ?path ?env] =>
             destruct (load_dotenv d path env) as [? ?] eqn:?; cbn [fst snd] in *
         end.

Lemma check_python_eq (w : World) (s : SetupChecker * Process) :
  check_python w s
  = (recorded "python" (VStr (sys_version w))
       ("Python version: " ++ sys_version w) s, Returned tt).
Proof. reflexivity. Qed.

Lemma path_exists_truthy (w : World) (path : string) :
  truthy (VStr path) && path_exists w path = path_exists w path.
Proof.
  unfold path_exists. simpl. now destruct (path =? "")%string.
Qed.

Lemma resolve_model_path_eq (s : SetupChecker * Process) :
  resolve_model_path s = (s, Returned (resolved_path s)).
Proof.
  unfold resolved_path. py_unfold.
  destruct (model_path (fst s)) as [p|]; simpl.
  - destruct (p =? "")%string; simpl; now destruct s as [c [? ? ?]].
  - now destruct s as [c [? ? ?]].
Qed.

Lemma check_model_path_eq (w : World) (s : SetupChecker * Process) :
  check_model_path w s
  = (recorded "model"
       (VDict [("found", VBool (path_exists w (resolved_path s)));
               ("path", VStr (resolved_path s))])
       ((if path_exists w (resolved_path s)
         then "Model found: " else "Model not found: ") ++ resolved_path s) s,
     Returned tt).
Proof.
  unfold check_model_path, bind at 1. rewrite resolve_model_path_eq.
  rewrite path_exists_truthy.
  destruct (path_exists w (resolved_path s)); reflexivity.
Qed.

Lemma check_env_absent (w : World) (s : SetupChecker * Process) :
  path_exists w (env_path (fst s)) = false ->
  check_env w s
  = (recorded "env" (VDict [("found", VBool false)])
       "Unable to reach environment variables" s, Returned tt).
Proof.
  intros H. py_unfold. now rewrite H.
Qed.

Lemma path_exists_file (w : World) (path content : string) :
  path <> "" -> fs w path = TextFile content -> path_exists w path = true.
Proof.
  intros Hne Hfs. unfold path_exists. rewrite Hfs.
  destruct (String.eqb_spec path ""); congruence.
Qed.

Lemma check_env_file (w : World) (s : SetupChecker * Process) (content : string) :
  env_path (fst s) <> "" ->
  fs w (env_path (fst s)) = TextFile content ->
  let n := List.length (filter keep_line (text_lines content)) in
  check_env w s
  = (recorded "env" (VDict [("found", VBool true); ("count", VInt (Z.of_nat n))])
       ("Env variables found: " ++ str_of_nat n ++ " entries") s, Returned tt).
Proof.
  intros Hne Hfs n. py_unfold.
  rewrite (path_exists_file _ _ _ Hne Hfs).
  unfold read_text_lines. rewrite Hfs. reflexivity.
Qed.

Lemma check_env_unreadable (w : World) (s : SetupChecker * Process) (e : exn) :
  env_path (fst s) <> "" ->
  fs w (env_path (fst s)) = OpenFails e ->
  check_env w s = (s, Raised e).
Proof.
  intros Hne Hfs. py_unfold.
  unfold path_exists, read_text_lines. rewrite Hfs.
  destruct (String.eqb_spec (env_path (fst s)) ""); [contradiction|].
  now destruct s.
Qed.

(** The loop of [check_dependencies] leaves the state alone. *)
Lemma probe_dependencies_state (w : World) (deps missing : list string)
    (s : SetupChecker * Process) :
  fst (probe_dependencies w deps missing s) = s.
Proof.
  revert missing. induction deps as [|dep deps IH]; intros missing; simpl; auto.
  py_unfold. destruct (import_module w dep) as [[]|e]; simpl.
  - apply IH.
  - destruct (is_ImportError e); simpl; auto.
Qed.

Lemma probe_dependencies_settled (w : World) (deps missing : list string)
    (s : SetupChecker * Process) :
  forallb (import_settled w) deps = true ->
  probe_dependencies w deps missing s
  = (s, Returned (missing ++ filter (import_fails w) deps)%list).
Proof.
  revert missing. induction deps as [|dep deps IH]; intros missing; simpl.
  - intros _. now rewrite app_nil_r.
  - intros H. apply andb_prop in H as [Hd Hdeps].
    unfold import_settled in Hd. unfold import_fails at 1.
    py_unfold. destruct (import_module w dep) as [[]|e]; simpl.
    + now apply IH.
    + rewrite Hd. rewrite IH by assumption. now rewrite <- app_assoc.
Qed.

(** The first import that raises something else than [ImportError] ends
    the loop with that exception. *)
Lemma probe_dependencies_unsettled (w : World) (deps missing : list string)
    (s : SetupChecker * Process) :
  forallb (import_settled w) deps = false ->
  exists e, probe_dependencies w deps missing s = (s, Raised e)
            /\ is_ImportError e = false.
Proof.
  revert missing. induction deps as [|dep deps IH]; intros missing; simpl.
  - discriminate.
  - intros H. unfold import_settled in H at 1.
    py_unfold. destruct (import_module w dep) as [[]|e]; simpl in *.
    + now apply IH.
    + destruct (is_ImportError e) eqn:E; simpl in *.
      * now apply IH.
      * now exists e.
Qed.

(** With every import settled the entry is assigned, and then the line
    is printed or the encoder of standard output raises. *)
Lemma check_dependencies_settled (w : World) (s : SetupChecker * Process) :
  forallb (import_settled w) (dependencies (fst s)) = true ->
  let missing := filter (import_fails w) (dependencies (fst s)) in
  let entry := VDict [("missing", VList (map VStr missing))] in
  check_dependencies w s
  = match stdout_encode w (dependencies_mark missing) with
    | Returned _ =>
        (recorded "dependencies" entry (dependencies_line missing) s, Returned tt)
    | Raised e => (assigned "dependencies" entry s, Raised e)
    end.
Proof.
  intros H missing entry. unfold check_dependencies, bind at 1, self.
  unfold bind at 1. cbn [fst snd].
  rewrite (probe_dependencies_settled w _ [] s H). cbn [app].
  fold missing. subst entry.
  destruct missing; cbn [dependencies_mark dependencies_line map truthy];
    py_unfold;
    match goal with |- context [stdout_encode w ?c] =>
      destruct (stdout_encode w c) as [[]|e] end; reflexivity.
Qed.

Lemma check_dependencies_results (w : World) (s : SetupChecker * Process) :
  forallb (import_settled w) (dependencies (fst s)) = true ->
  results_of (state_after (check_dependencies w) s)
  = dict_set "dependencies"
      (VDict [("missing",
               VList (map VStr (filter (import_fails w) (dependencies (fst s)))))])
      (results_of s).
Proof.
  intros H. unfold state_after. rewrite (check_dependencies_settled w s H).
  now destruct (stdout_encode w _).
Qed.

Lemma check_dependencies_encodable (w : World) (s : SetupChecker * Process) :
  check_settled w CheckDependencies s = true ->
  let missing := filter (import_fails w) (dependencies (fst s)) in
  check_dependencies w s
  = (recorded "dependencies" (VDict [("missing", VList (map VStr missing))])
       (dependencies_line missing) s, Returned tt).
Proof.
  intros H missing. cbn [check_settled] in H. apply andb_prop in H as [Hs He].
  rewrite (check_dependencies_settled w s Hs). fold missing.
  unfold report_encodable in He. fold missing in He.
  now destruct (stdout_encode w (dependencies_mark missing)) as [[]|e].
Qed.

Lemma check_dependencies_unencodable (w : World) (s : SetupChecker * Process) :
  forallb (import_settled w) (dependencies (fst s)) = true ->
  report_encodable w (dependencies (fst s)) = false ->
  let missing := filter (import_fails w) (dependencies (fst s)) in
  exists e,
    stdout_encode w (dependencies_mark missing) = Raised e
    /\ check_dependencies w s
       = (assigned "dependencies" (VDict [("missing", VList (map VStr missing))]) s,
          Raised e).
Proof.
  intros Hs He missing.
  rewrite (check_dependencies_settled w s Hs). fold missing.
  unfold report_encodable in He. fold missing in He.
  destruct (stdout_encode w (dependencies_mark missing)) as [[]|e];
    [discriminate|]. now exists e.
Qed.

Lemma check_dependencies_unsettled (w : World) (s : SetupChecker * Process) :
  forallb (import_settled w) (dependencies (fst s)) = false ->
  exists e, check_dependencies w s = (s, Raised e) /\ is_ImportError e = false.
Proof.
  intros H.
  destruct (probe_dependencies_unsettled w _ [] s H) as [e [He Hc]].
  exists e. split; auto.
  unfold check_dependencies, bind at 1, self. unfold bind at 1. cbn [fst snd].
  now rewrite He.
Qed.

(** A check with a [try] block returns what the block returns, and turns
    an exception of the block into an entry and a line. *)
Lemma guarded_check_eq (w : World) (op : check) (body : Meth unit)
    (s : SetupChecker * Process) :
  try_block w op = Some body ->
  run_check w op s
  = match body s with
    | (s1, Returned _) => (s1, Returned tt)
    | (s1, Raised e) =>
        (recorded (check_key op) (error_entry e) (error_label op ++ str_exn e) s1,
         Returned tt)
    end.
Proof.
  destruct op; simpl; intros H; inversion H; subst body;
    unfold check_pytorch, check_gpu_memory, check_dotenv, try_except;
    match goal with |- context [match ?b s with _ => _ end] =>
      destruct (b s) as [s1 [[]|e]] end; reflexivity.
Qed.

(** A [try] block that raises has written no entry; one that returns has
    written the entry of its check. *)
Lemma try_block_results (w : World) (op : check) (body : Meth unit)
    (s : SetupChecker * Process) :
  try_block w op = Some body ->
  config_of (state_after body s) = config_of s
  /\ match outcome_of body s with
     | Returned _ =>
         exists v, results_of (state_after body s)
                   = dict_set (check_key op) v (results_of s)
     | Raised _ => results_of (state_after body s) = results_of s
     end.
Proof.
  destruct op; simpl; intros H; inversion H; subst body; clear H;
    unfold config_of; py_unfold; py_cases; try discriminate;
    split; try reflexivity; eexists; reflexivity.
Qed.

Lemma recorded_results (key : string) (v : pyval) (line : string)
    (s : SetupChecker * Process) :
  results_of (recorded key v line s) = dict_set key v (results_of s).
Proof. reflexivity. Qed.

Lemma recorded_config (key : string) (v : pyval) (line : string)
    (s : SetupChecker * Process) :
  config_of (recorded key v line s) = config_of s.
Proof. reflexivity. Qed.

(** Every check either returns, and then it has assigned one value to
    its key, or raises, and then the results mapping is as it was, or
    the check is [check_dependencies] and has assigned its entry before
    the print that raised. *)
Lemma run_check_effect (w : World) (op : check) (s : SetupChecker * Process) :
  config_of (state_after (run_check w op) s) = config_of s
  /\ match outcome_of (run_check w op) s with
     | Returned _ =>
         exists v, results_of (state_after (run_check w op) s)
                   = dict_set (check_key op) v (results_of s)
     | Raised _ =>
         results_of (state_after (run_check w op) s) = results_of s
         \/ (op = CheckDependencies
             /\ exists v, results_of (state_after (run_check w op) s)
                          = dict_set (check_key op) v (results_of s))
     end.
Proof.
  destruct (try_block w op) as [body|] eqn:Hb.
  - pose proof (try_block_results w op body s Hb) as [Hc Hr].
    unfold state_after, outcome_of in *.
    rewrite (guarded_check_eq w op body s Hb).
    destruct (body s) as [s1 [[]|e]]; cbn [fst snd] in *.
    + auto.
    + rewrite recorded_config, recorded_results, Hr. split; eauto.
  - destruct op; try discriminate; unfold state_after, outcome_of;
      cbn [run_check check_key].
    + rewrite check_python_eq. cbn [fst snd]. split; [reflexivity | first [reflexivity | eexists; reflexivity]].
    + destruct (path_exists w (env_path (fst s))) eqn:He.
      * destruct (fs w (env_path (fst s))) as [|content|e] eqn:Hfs.
        -- unfold path_exists in He. rewrite Hfs in He.
           destruct (_ =? _)%string; discriminate.
        -- assert (Hne : env_path (fst s) <> "").
           { intros E. unfold path_exists in He. rewrite E in He. discriminate. }
           rewrite (check_env_file w s content Hne Hfs). cbn [fst snd]. split; [reflexivity | first [reflexivity | eexists; reflexivity]].
        -- assert (Hne : env_path (fst s) <> "").
           { intros E. unfold path_exists in He. rewrite E in He. discriminate. }
           rewrite (check_env_unreadable w s e Hne Hfs). cbn [fst snd]. split; [reflexivity | now left].
      * rewrite (check_env_absent w s He). cbn [fst snd]. split; [reflexivity | first [reflexivity | eexists; reflexivity]].
    + rewrite check_model_path_eq. cbn [fst snd]. split; [reflexivity | first [reflexivity | eexists; reflexivity]].
    + destruct (forallb (import_settled w) (dependencies (fst s))) eqn:Hs.
      * rewrite (check_dependencies_settled w s Hs).
        destruct (stdout_encode w _) as [[]|e]; cbn [fst snd].
        -- split; [reflexivity | eexists; reflexivity].
        -- split; [reflexivity | right; split; [reflexivity | eexists; reflexivity]].
      * destruct (check_dependencies_unsettled w s Hs) as [e [-> _]].
        cbn [fst snd]. split; [reflexivity | now left].
Qed.

(** ** Lines of a configuration file *)

Lemma lstrip_first_visible (l : string) :
  match first_visible l with
  | None => lstrip l = ""
  | Some c => exists t, lstrip l = String c t /\ is_space c = false
  end.
Proof.
  induction l as [|c l IH]; simpl; auto.
  destruct (is_space c) eqn:E; auto.
  exists l. auto.
Qed.

Lemma rstrip_visible_head (c : ascii) (t : string) :
  is_space c = false -> exists t', rstrip (String c t) = String c t'.
Proof.
  intros H. simpl. destruct (rstrip t).
  - rewrite H. now exists "".
  - eexists. reflexivity.
Qed.

Lemma startswith_hash (c : ascii) (t : string) :
  startswith "#" (String c t) = Ascii.eqb c "#".
Proof.
  unfold startswith.
  change (String.prefix "#" (String c t))
    with (if ascii_dec "#" c then String.prefix "" t else false).
  destruct (ascii_dec "#" c) as [<-|Hne].
  - rewrite Ascii.eqb_refl. now destruct t.
  - symmetry. apply Ascii.eqb_neq. congruence.
Qed.

(** The test of the source, on the stripped line, is the test on the
    first visible character. *)
Lemma keep_line_data_line (l : string) : keep_line l = is_data_line l.
Proof.
  unfold keep_line, is_data_line, strip.
  pose proof (lstrip_first_visible l) as H.
  destruct (first_visible l) as [c|].
  - destruct H as [t [-> Hc]].
    destruct (rstrip_visible_head c t Hc) as [t' ->].
    rewrite startswith_hash. reflexivity.
  - rewrite H. reflexivity.
Qed.

Lemma filter_keep_line (ls : list string) :
  filter keep_line ls = filter is_data_line ls.
Proof.
  apply filter_ext. intros l. apply keep_line_data_line.
Qed.

(** ** The checks and the results mapping *)

Lemma env_checkable_cases (w : World) (path : string) :
  env_checkable w path = true ->
  path_exists w path = false
  \/ (path <> "" /\ exists content, fs w path = TextFile content).
Proof.
  unfold env_checkable, path_exists.
  destruct (String.eqb_spec path "") as [->|Hne]; auto.
  destruct (fs w path) as [|content|e].
  - now left.
  - right. split; auto. now exists content.
  - discriminate.
Qed.

Lemma settled_check_returns (w : World) (op : check) (s : SetupChecker * Process) :
  check_settled w op s = true ->
  outcome_of (run_check w op) s = Returned tt.
Proof.
  intros H. unfold outcome_of.
  destruct (try_block w op) as [body|] eqn:Hb.
  - rewrite (guarded_check_eq w op body s Hb).
    now destruct (body s) as [s1 [[]|e]].
  - destruct op; try discriminate; cbn [run_check check_settled] in *.
    + now rewrite check_python_eq.
    + destruct (env_checkable_cases w _ H) as [Ha|[Hne [content Hfs]]].
      * now rewrite (check_env_absent w s Ha).
      * now rewrite (check_env_file w s content Hne Hfs).
    + now rewrite check_model_path_eq.
    + now rewrite (check_dependencies_encodable w s H).
Qed.






(** ** The dependency check *)

Lemma filter_import_fails_nil (w : World) (deps : list string) :
  forallb (fun d => returns (import_module w d)) deps = true ->
  filter (import_fails w) deps = [].
Proof.
  induction deps as [|d deps IH]; simpl; auto.
  intros H. apply andb_prop in H as [Hd Hdeps].
  unfold import_fails at 1. rewrite Hd. simpl. auto.
Qed.

(** C3, as the code has it.  When every configured name either imports
    or raises [ImportError], [check_dependencies] records under
    ["dependencies"] the mapping whose ["missing"] is the list of the
    configured names whose import fails, in the order of the configured
    list; it is the empty list when every name imports.  The entry is
    there whether the print after it returns or raises: the outcome of
    the check is that of encoding the mark of its line for standard
    output. *)
Theorem missing_dependencies (w : World) (s : SetupChecker * Process) :
  forallb (import_settled w) (dependencies (fst s)) = true ->
  let missing := filter (import_fails w) (dependencies (fst s)) in
  outcome_of (check_dependencies w) s = stdout_encode w (dependencies_mark missing)
  /\ dict_get "dependencies" (results_of (state_after (check_dependencies w) s))
     = Some (VDict [("missing", VList (map VStr missing))])
  /\ (forall d, In d missing <-> In d (dependencies (fst s)) /\ import_fails w d = true)
  /\ (forallb (fun d => returns (import_module w d)) (dependencies (fst s)) = true ->
      missing = []).
Proof.
  intros H missing. split; [|split].
  - unfold outcome_of. rewrite (check_dependencies_settled w s H). fold missing.
    now destruct (stdout_encode w (dependencies_mark missing)) as [[]|e].
  - rewrite (check_dependencies_results w s H). apply dict_get_set_same.
  - split.
    + intros d. apply filter_In.
    + apply filter_import_fails_nil.
Qed.

(** Three names on the sample machine: two import, one is not
    installed. *)
Lemma missing_dependencies_witness :
  dict_get "dependencies"
    (results_of (state_after (check_dependencies sample_world)
       (init ".env" None (Some ["fastapi"; "definitely_not_a_real_module_xyz"; "uvicorn"]),
        fresh_process)))
  = Some (VDict [("missing", VList [VStr "definitely_not_a_real_module_xyz"])]).
Proof.
  exact (proj1 (proj2 (missing_dependencies sample_world
    (init ".env" None (Some ["fastapi"; "definitely_not_a_real_module_xyz"; "uvicorn"]),
     fresh_process) eq_refl))).
Defined.

(** C3 fails: the import of the second name fails, with an [OSError];
    [check_dependencies] raises and records no ["dependencies"] entry. *)
Lemma missing_dependencies_counterexample :
  filter (import_fails sample_world) (dependencies broken_dep_checker)
  = ["faster_whisper"]
  /\ dict_get "dependencies"
       (results_of (state_after (check_dependencies sample_world)
                      (broken_dep_checker, fresh_process)))
     = None.
Proof. split; reflexivity. Qed.

(** ** The model path *)

(** C4, as the code has it.  An explicit model path that is not empty is
    used, whatever [MODEL_PATH] holds; without an explicit path, or with
    the empty one, the value of [MODEL_PATH] is used, and the empty path
    when the variable is not set.  The entry is [{found, path}] with
    [found] telling whether the resolved path exists. *)
Theorem model_path_resolution (w : World) (s : SetupChecker * Process) :
  let entry path := VDict [("found", VBool (path_exists w path)); ("path", VStr path)] in
  let recorded_entry :=
    dict_get "model" (results_of (state_after (check_model_path w) s)) in
  outcome_of (check_model_path w) s = Returned tt
  /\ (forall p, model_path (fst s) = Some p -> p <> "" ->
        recorded_entry = Some (entry p))
  /\ (forall v, model_path (fst s) = None \/ model_path (fst s) = Some "" ->
        environ_get "MODEL_PATH" (environ (snd s)) = Some v ->
        recorded_entry = Some (entry v))
  /\ (model_path (fst s) = None \/ model_path (fst s) = Some "" ->
      environ_get "MODEL_PATH" (environ (snd s)) = None ->
      recorded_entry = Some (VDict [("found", VBool false); ("path", VStr "")])).
Proof.
  intros entry recorded_entry. subst recorded_entry.
  unfold outcome_of, state_after. rewrite check_model_path_eq. cbn [fst snd].
  rewrite recorded_results, dict_get_set_same.
  split; [reflexivity|]. unfold resolved_path. repeat split.
  - intros p -> Hne. apply String.eqb_neq in Hne. now rewrite Hne.
  - intros v [->| ->] ->; reflexivity.
  - intros [->| ->] ->; reflexivity.
Qed.

(** An explicit path wins over the variable; the variable is used when
    there is no explicit path. *)
Lemma model_path_resolution_witness :
  dict_get "model"
    (results_of (state_after (check_model_path sample_world)
       (init ".env" (Some "/srv/other") None, model_env_process)))
  = Some (VDict [("found", VBool false); ("path", VStr "/srv/other")])
  /\ dict_get "model"
       (results_of (state_after (check_model_path sample_world)
          (init_default, model_env_process)))
     = Some (VDict [("found", VBool true); ("path", VStr "/models/whisper")]).
Proof.
  split.
  - refine (proj1 (proj2 (model_path_resolution sample_world
      (init ".env" (Some "/srv/other") None, model_env_process))) "/srv/other" eq_refl _).
    discriminate.
  - exact (proj1 (proj2 (proj2 (model_path_resolution sample_world
      (init_default, model_env_process)))) "/models/whisper" (or_introl eq_refl) eq_refl).
Defined.

(** C4 fails: the empty path given explicitly is not used; the variable
    is read and its path is recorded as found. *)
Lemma model_path_resolution_counterexample :
  model_path empty_path_checker = Some ""
  /\ dict_get "model"
       (results_of (state_after (check_model_path sample_world)
                      (empty_path_checker, model_env_process)))
     = Some (VDict [("found", VBool true); ("path", VStr "/models/whisper")]).
Proof. split; reflexivity. Qed.

(** ** The configuration file *)

(** C5.  On a path that does not exist [check_env] records
    [{"found": False}], which has no ["count"]; on a file that reads as
    text it records [{"found": True, "count": N}], [N] the number of
    lines that have a visible character, the first of which is not
    [#]. *)
Theorem env_entry (w : World) (s : SetupChecker * Process) :
  let recorded_entry := dict_get "env" (results_of (state_after (check_env w) s)) in
  (path_exists w (env_path (fst s)) = false ->
   recorded_entry = Some (VDict [("found", VBool false)])
   /\ dict_get "count" [("found", VBool false)] = None)
  /\ (forall content,
        env_path (fst s) <> "" ->
        fs w (env_path (fst s)) = TextFile content ->
        let N := List.length (filter is_data_line (text_lines content)) in
        recorded_entry
        = Some (VDict [("found", VBool true); ("count", VInt (Z.of_nat N))])).
Proof.
  intros recorded_entry. subst recorded_entry. unfold state_after. split.
  - intros H. rewrite (check_env_absent w s H). cbn [fst].
    rewrite recorded_results, dict_get_set_same. now split.
  - intros content Hne Hfs. cbv zeta.
    rewrite (check_env_file w s content Hne Hfs).
    cbn [fst]. rewrite recorded_results, dict_get_set_same.
    now rewrite filter_keep_line.
Qed.

(** The sample file has two entries and a comment; the path [nothing]
    does not exist. *)
Lemma env_entry_witness :
  dict_get "env"
    (results_of (state_after (check_env sample_world) (init_default, fresh_process)))
  = Some (VDict [("found", VBool true); ("count", VInt 2)])
  /\ dict_get "env"
       (results_of (state_after (check_env sample_world)
                      (init "nothing" None None, fresh_process)))
     = Some (VDict [("found", VBool false)]).
Proof.
  split.
  - refine (proj2 (env_entry sample_world (init_default, fresh_process))
              sample_env_file _ eq_refl).
    discriminate.
  - exact (proj1 (proj1 (env_entry sample_world (init "nothing" None None, fresh_process))
                    eq_refl)).
Defined.

(** ** Construction *)

(** C10.  A [dependencies] argument that is [None], the empty list, or
    any falsy value is stored as the empty list; the field is the list
    that was given, or the empty list: it is a list in every case. *)
Theorem init_dependencies (env_path : string) (model_path : option string) :
  dependencies (init env_path model_path None) = []
  /\ dependencies (init env_path model_path (Some [])) = []
  /\ (forall d, truthy (val_of_dependencies d) = false ->
        dependencies (init env_path model_path d) = [])
  /\ (forall d, dependencies (init env_path model_path d)
                = match d with Some l => l | None => [] end).
Proof.
  repeat split; try reflexivity.
  - intros [[|x l]|]; simpl; auto. discriminate.
  - intros [[|x l]|]; reflexivity.
Qed.

(** ** Running a check again *)

Lemma check_env_again (w : World) (s : SetupChecker * Process) :
  results_of (state_after (check_env w) (state_after (check_env w) s))
  = results_of (state_after (check_env w) s).
Proof.
  unfold state_after.
  destruct (path_exists w (env_path (fst s))) eqn:He.
  - assert (Hne : env_path (fst s) <> "").
    { intros E. unfold path_exists in He. rewrite E in He. discriminate. }
    destruct (fs w (env_path (fst s))) as [|content|e] eqn:Hfs.
    + unfold path_exists in He. rewrite Hfs in He.
      destruct (_ =? _)%string; discriminate.
    + rewrite (check_env_file w s content Hne Hfs). cbn [fst].
      set (s1 := recorded _ _ _ s).
      rewrite (check_env_file w s1 content Hne Hfs). cbn [fst].
      rewrite !recorded_results. apply dict_set_set.
    + rewrite (check_env_unreadable w s e Hne Hfs). cbn [fst].
      now rewrite (check_env_unreadable w s e Hne Hfs).
  - rewrite (check_env_absent w s He). cbn [fst].
    set (s1 := recorded _ _ _ s).
    rewrite (check_env_absent w s1 He). cbn [fst].
    rewrite !recorded_results. apply dict_set_set.
Qed.

Lemma check_dependencies_again (w : World) (s : SetupChecker * Process) :
  results_of (state_after (check_dependencies w) (state_after (check_dependencies w) s))
  = results_of (state_after (check_dependencies w) s).
Proof.
  destruct (forallb (import_settled w) (dependencies (fst s))) eqn:Hs.
  - pose proof (run_check_effect w CheckDependencies s) as [Hc _].
    cbn [run_check] in Hc.
    assert (Hd : dependencies (fst (state_after (check_dependencies w) s))
                 = dependencies (fst s)).
    { unfold config_of in Hc. now inversion Hc. }
    rewrite (check_dependencies_results w (state_after (check_dependencies w) s));
      rewrite Hd; [|exact Hs].
    rewrite (check_dependencies_results w s Hs). apply dict_set_set.
  - unfold state_after.
    destruct (check_dependencies_unsettled w s Hs) as [e [He _]].
    rewrite He. cbn [fst]. now rewrite He.
Qed.

Lemma check_dotenv_again (w : World) (s : SetupChecker * Process) :
  dotenv_settled w ->
  results_of (state_after (check_dotenv w) (state_after (check_dotenv w) s))
  = results_of (state_after (check_dotenv w) s).
Proof.
  intros Hw. unfold state_after, dotenv_settled in *.
  py_unfold.
  destruct (import_dotenv w) as [d|e] eqn:Hd; cbn [fst snd].
  - specialize (Hw d (env_path (fst s)) (environ (snd s)) eq_refl).
    destruct (load_dotenv d (env_path (fst s)) (environ (snd s)))
      as [env1 o1] eqn:H1; cbn [fst snd] in *.
    destruct o1 as [b1|e1]; cbn [fst snd environ env_path results] in *;
      destruct (load_dotenv d (env_path (fst s)) env1) as [env2 o2];
      cbn [fst snd] in *; subst o2; cbn [fst snd results];
      now rewrite dict_set_set.
  - apply dict_set_set.
Qed.

(** C8.  In an outside that answers the second time as it did the first,
    a check run twice in a row leaves the results mapping that one run
    leaves: the second run assigns the same value to the same key. *)
Theorem checks_idempotent (w : World) (op : check) (s : SetupChecker * Process) :
  dotenv_settled w ->
  results_of (state_after (run_check w op) (state_after (run_check w op) s))
  = results_of (state_after (run_check w op) s).
Proof.
  intros Hw. destruct op; cbn [run_check].
  - unfold state_after. rewrite !check_python_eq. cbn [fst].
    rewrite !recorded_results. apply dict_set_set.
  - unfold state_after. py_unfold. py_cases; cbn [results]; try discriminate;
      now rewrite dict_set_set.
  - unfold state_after. py_unfold. py_cases; cbn [results]; try discriminate;
      now rewrite dict_set_set.
  - apply check_env_again.
  - now apply check_dotenv_again.
  - unfold state_after. rewrite !check_model_path_eq. cbn [fst].
    rewrite !recorded_results. apply dict_set_set.
  - apply check_dependencies_again.
Qed.

Lemma environ_get_app_last (name value : string) (env : environ_t) :
  environ_get name (env ++ [(name, value)])%list
  = match environ_get name env with
    | Some v => Some v
    | None => Some value
    end.
Proof.
  induction env as [|[k v] env IH]; simpl.
  - now rewrite String.eqb_refl.
  - destruct (name =? k)%string; auto.
Qed.

Lemma sample_dotenv_settled : dotenv_settled sample_world.
Proof.
  intros d path env H. inversion H; subst d; clear H.
  cbn [load_dotenv sample_dotenv].
  destruct (path =? ".env")%string eqn:Ep; [|reflexivity].
  destruct (environ_get "MODEL_PATH" env) as [v|] eqn:Ev; cbn [fst snd].
  - now rewrite Ev.
  - rewrite environ_get_app_last, Ev. reflexivity.
Qed.

(** Loading the sample configuration file twice. *)
Lemma checks_idempotent_witness :
  results_of (state_after (run_check sample_world CheckDotenv)
                (state_after (run_check sample_world CheckDotenv)
                   (init_default, fresh_process)))
  = [("dotenv", VDict [("loaded", VBool true)])].
Proof.
  rewrite (checks_idempotent sample_world CheckDotenv (init_default, fresh_process)
             sample_dotenv_settled).
  reflexivity.
Defined.

(** ** [run_all] *)

Lemma bind_eq {S A B} (m : Py S A) (k : A -> Py S B) (s : S) :
  bind m k s
  = match m s with
    | (s', Returned a) => k a s'
    | (s', Raised e) => (s', Raised e)
    end.
Proof. reflexivity. Qed.

Lemma run_check_config (w : World) (op : check) (s s1 : SetupChecker * Process)
    (o : outcome unit) :
  run_check w op s = (s1, o) -> config_of s1 = config_of s.
Proof.
  intros H. pose proof (run_check_effect w op s) as [Hc _].
  unfold state_after in Hc. now rewrite H in Hc.
Qed.


Lemma header_state (s : SetupChecker * Process) :
  io run_all_header s = (state_after (io run_all_header) s, Returned tt)
  /\ config_of (state_after (io run_all_header) s) = config_of s
  /\ results_of (state_after (io run_all_header) s) = results_of s.
Proof. repeat split. Qed.

(** [run_all] is its header, the checks of [checks_of] one after the
    other, its footer, and the return of the results mapping. *)
Lemma run_all_sequence (w : World) (s : SetupChecker * Process) :
  run_all w s
  = (io run_all_header ;;
     run_checks w (checks_of (dependencies (fst s))) ;;
     io run_all_footer ;;
     c' <- self ;;
     ret (results c')) s.
Proof.
  unfold run_all, checks_of.
  rewrite !bind_eq. cbn [io print run_all_header bind fst snd].
  set (s0 := (fst s, _)).
  assert (H0 : config_of s0 = config_of s) by reflexivity.
  cbn [app run_checks]. rewrite !bind_eq. cbn [run_check].
  destruct (check_python w s0) as [s1 [[]|e1]] eqn:E1; [|reflexivity].
  pose proof (run_check_config w CheckPython _ _ _ E1) as H1.
  rewrite !bind_eq.
  destruct (check_pytorch w s1) as [s2 [[]|e2]] eqn:E2; [|reflexivity].
  pose proof (run_check_config w CheckPytorch _ _ _ E2) as H2.
  rewrite !bind_eq.
  destruct (check_gpu_memory w 0 s2) as [s3 [[]|e3]] eqn:E3; [|reflexivity].
  pose proof (run_check_config w (CheckGpuMemory 0) _ _ _ E3) as H3.
  rewrite !bind_eq.
  destruct (check_env w s3) as [s4 [[]|e4]] eqn:E4; [|reflexivity].
  pose proof (run_check_config w CheckEnv _ _ _ E4) as H4.
  rewrite !bind_eq.
  destruct (check_dotenv w s4) as [s5 [[]|e5]] eqn:E5; [|reflexivity].
  pose proof (run_check_config w CheckDotenv _ _ _ E5) as H5.
  rewrite !bind_eq.
  destruct (check_model_path w s5) as [s6 [[]|e6]] eqn:E6; [|reflexivity].
  pose proof (run_check_config w CheckModelPath _ _ _ E6) as H6.
  assert (Hd : dependencies (fst s6) = dependencies (fst s)).
  { assert (Hc : config_of s6 = config_of s) by congruence.
    unfold config_of in Hc. now inversion Hc. }
  rewrite bind_eq. unfold self at 1. cbv beta iota. cbn [fst]. rewrite Hd.
  destruct (dependencies (fst s)) as [|d deps]; cbn [map truthy run_checks].
  - reflexivity.
  - rewrite !bind_eq. cbn [run_check].
    destruct (check_dependencies w s6) as [s7 [[]|e7]]; reflexivity.
Qed.








(** ** The GPU monitor *)

(** C7.  Without a handle [utilization] returns [0.0]: the process is as
    it was, so no telemetry call was made and nothing was printed.  With
    a handle it makes the one query; it returns the percentage the
    library reports, which is between 0 and 100 when the report is, and
    when the query raises it returns [0.0] and prints nothing. *)
Theorem utilization_value (nvml : Nvml) (p : Process) :
  gpu.utilization nvml None p = (p, Returned (VFloat float_zero))
  /\ (forall h u,
        nvmlDeviceGetUtilizationRates nvml h = Returned u ->
        gpu.utilization nvml (Some h) p
        = (logged (CallGetUtilizationRates h) p, Returned (VInt (util_gpu u)))
        /\ (0 <= util_gpu u <= 100 ->
            exists z, outcome_of (gpu.utilization nvml (Some h)) p = Returned (VInt z)
                      /\ 0 <= z <= 100))
  /\ (forall h e,
        nvmlDeviceGetUtilizationRates nvml h = Raised e ->
        gpu.utilization nvml (Some h) p
        = (logged (CallGetUtilizationRates h) p, Returned (VFloat float_zero))
        /\ stdout (state_after (gpu.utilization nvml (Some h)) p) = stdout p).
Proof.
  split; [reflexivity|]. split.
  - intros h u H.
    assert (E : gpu.utilization nvml (Some h) p
                = (logged (CallGetUtilizationRates h) p, Returned (VInt (util_gpu u)))).
    { unfold gpu.utilization, try_except, bind, nv, ret. now rewrite H. }
    split; [exact E|].
    intros Hr. exists (util_gpu u). unfold outcome_of. rewrite E. now split.
  - intros h e H.
    assert (E : gpu.utilization nvml (Some h) p
                = (logged (CallGetUtilizationRates h) p, Returned (VFloat float_zero))).
    { unfold gpu.utilization, try_except, bind, nv, ret. now rewrite H. }
    split; [exact E|]. unfold state_after. now rewrite E.
Qed.

(** The sample device reports 37 percent; the handle 2 is not a device. *)
Lemma utilization_value_witness :
  gpu.utilization sample_nvml (Some 1) fresh_process
  = (logged (CallGetUtilizationRates 1) fresh_process, Returned (VInt 37))
  /\ gpu.utilization sample_nvml (Some 2) fresh_process
     = (logged (CallGetUtilizationRates 2) fresh_process, Returned (VFloat float_zero)).
Proof.
  pose proof (utilization_value sample_nvml fresh_process) as [_ [Hok Hfail]].
  split.
  - exact (proj1 (Hok 1 {| util_gpu := 37; util_memory := 12 |} eq_refl)).
  - exact (proj1 (Hfail 2 (mk_exn NVMLError "Invalid Argument") eq_refl)).
Defined.

(** ** Floats: an exact quotient, and rounding to decimals *)

Lemma digits2_pos_bounds (p : positive) :
  2 ^ (Zpos (digits2_pos p) - 1) <= Zpos p < 2 ^ Zpos (digits2_pos p).
Proof.
  induction p as [p IH|p IH|]; cbn [digits2_pos].
  - rewrite Pos2Z.inj_succ.
    replace (Z.succ (Zpos (digits2_pos p)) - 1) with (Z.succ (Zpos (digits2_pos p) - 1)) by lia.
    rewrite !Z.pow_succ_r by lia. lia.
  - rewrite Pos2Z.inj_succ.
    replace (Z.succ (Zpos (digits2_pos p)) - 1) with (Z.succ (Zpos (digits2_pos p) - 1)) by lia.
    rewrite !Z.pow_succ_r by lia. lia.
  - simpl. lia.
Qed.

Lemma digits2_pos_unique (p : positive) (k : Z) :
  2 ^ (k - 1) <= Zpos p < 2 ^ k -> Zpos (digits2_pos p) = k.
Proof.
  intros [Hlo Hhi]. pose proof (digits2_pos_bounds p) as [Blo Bhi].
  set (d := Zpos (digits2_pos p)) in *.
  assert (Hd : 0 < d) by (subst d; lia).
  destruct (Z.lt_trichotomy d k) as [Hlt|[Heq|Hgt]]; auto; exfalso.
  - assert (2 ^ d <= 2 ^ (k - 1)) by (apply Z.pow_le_mono_r; lia). lia.
  - assert (0 <= k \/ k < 0) as [Hk|Hk] by lia.
    + assert (2 ^ k <= 2 ^ (d - 1)) by (apply Z.pow_le_mono_r; lia). lia.
    + rewrite (Z.pow_neg_r 2 k) in Hhi by lia. lia.
Qed.

Lemma digits2_pos_below (q : positive) (k : Z) :
  Zpos q < 2 ^ k -> Zpos (digits2_pos q) <= k.
Proof.
  intros H. pose proof (digits2_pos_bounds q) as [Hlo _].
  destruct (Z_le_gt_dec (Zpos (digits2_pos q)) k) as [|Hgt]; auto. exfalso.
  assert (0 <= k \/ k < 0) as [Hk|Hk] by lia.
  - assert (2 ^ k <= 2 ^ (Zpos (digits2_pos q) - 1)) by (apply Z.pow_le_mono_r; lia).
    lia.
  - rewrite Z.pow_neg_r in H by lia. lia.
Qed.

Lemma div_eucl_exact (c b : Z) : 0 < b -> Z.div_eucl (c * b) b = (c, 0).
Proof.
  intros Hb.
  assert (E : Z.div_eucl (c * b) b = ((c * b) / b, (c * b) mod b)).
  { unfold Z.div, Z.modulo. now destruct (Z.div_eucl (c * b) b). }
  rewrite E, Z.div_mul, Z.mod_mul by lia. reflexivity.
Qed.

(** The quotient of a number of fewer than 54 bits by [2^30] is a float,
    exactly: the mantissa is the number moved up to 53 bits. *)
Lemma int_truediv_exact (q : positive) :
  Zpos (digits2_pos q) <= 53 ->
  let D := Zpos (digits2_pos q) in
  int_truediv (Zpos q) (1024 ^ 3)
  = Returned (S754_finite false (Z.to_pos (Zpos q * 2 ^ (53 - D))) (D - 83)).
Proof.
  intros HD D. fold D in HD.
  assert (HD0 : 0 < D) by (subst D; lia).
  pose proof (digits2_pos_bounds q) as Bq. fold D in Bq.
  unfold int_truediv. change (1024 ^ 3 =? 0) with false. cbv iota.
  change (Z2SF (Zpos q)) with (S754_finite false q 0).
  change (Z2SF (1024 ^ 3)) with (S754_finite false 1073741824 0).
  unfold SFdiv, SFdiv_core_binary.
  change (Zdigits2 (Zpos q)) with D.
  change (Zdigits2 1073741824) with 31.
  assert (He : Z.min (fexp prec emax (D + 0 - (31 + 0))) (0 - 0) = D - 84).
  { unfold fexp, emin, prec, emax. lia. }
  rewrite He.
  assert (Hs : 0 - 0 - (D - 84) = 84 - D) by lia. rewrite Hs.
  destruct (84 - D) as [|k|k] eqn:Ek; try lia. rewrite <- Ek.
  rewrite Z.shiftl_mul_pow2 by lia.
  set (c := Zpos q * 2 ^ (54 - D)).
  assert (Hc : Zpos q * 2 ^ (84 - D) = c * 1073741824).
  { subst c. replace (84 - D) with ((54 - D) + 30) by lia.
    rewrite Z.pow_add_r by lia. change (2 ^ 30) with 1073741824. lia. }
  rewrite Hc, div_eucl_exact by lia.
  change (new_location 1073741824 0) with loc_Exact.
  change (xorb false false) with false.
  (* the quotient has 54 bits, the last of which is 0 *)
  set (m := Z.to_pos (Zpos q * 2 ^ (53 - D))).
  assert (Hpow : 0 < 2 ^ (53 - D)) by (apply Z.pow_pos_nonneg; lia).
  assert (Hm : Zpos m = Zpos q * 2 ^ (53 - D)).
  { subst m. rewrite Z2Pos.id; lia. }
  assert (Hcm : c = Zpos m~0).
  { subst c. replace (54 - D) with (Z.succ (53 - D)) by lia.
    rewrite Z.pow_succ_r by lia. lia. }
  assert (Hdm : Zpos (digits2_pos m) = 53).
  { apply digits2_pos_unique. rewrite Hm. split.
    - replace (53 - 1) with ((D - 1) + (53 - D)) by lia.
      rewrite Z.pow_add_r by lia. apply Z.mul_le_mono_nonneg_r; lia.
    - replace 53 with (D + (53 - D)) at 2 by lia.
      rewrite Z.pow_add_r by lia. apply Z.mul_lt_mono_pos_r; lia. }
  rewrite Hcm. unfold binary_round_aux, shr_fexp.
  cbn [Zdigits2 digits2_pos shr_record_of_loc].
  rewrite Pos2Z.inj_succ, Hdm.
  assert (H1 : fexp prec emax (Z.succ 53 + (D - 84)) - (D - 84) = 1).
  { unfold fexp, emin, prec, emax. lia. }
  rewrite H1.
  cbn [shr iter_pos shr_1 shr_m loc_of_shr_record round_nearest_even orb].
  cbn [Zdigits2]. rewrite Hdm.
  assert (H0 : fexp prec emax (53 + (D - 84 + 1)) - (D - 84 + 1) = 0).
  { unfold fexp, emin, prec, emax. lia. }
  rewrite H0. cbn [shr shr_m].
  assert (Hle : (D - 84 + 1 <=? emax - prec) = true).
  { apply Z.leb_le. unfold emax, prec. lia. }
  rewrite Hle. f_equal. f_equal. lia.
Qed.

(** *** No overflow: the quotient of a 64-bit count is a float *)

Lemma shr_1_bounds (mrs : shr_record) :
  0 <= shr_m mrs -> 0 <= shr_m (shr_1 mrs) <= shr_m mrs.
Proof.
  destruct mrs as [m r s]. cbn [shr_m]. intros H.
  destruct m as [|[p|p|]|p]; cbn [shr_1 shr_m]; lia.
Qed.

Lemma iter_shr_1_bounds (n : positive) :
  forall mrs, 0 <= shr_m mrs -> 0 <= shr_m (iter_pos shr_1 n mrs) <= shr_m mrs.
Proof.
  induction n as [n IH|n IH|]; intros mrs H; cbn [iter_pos].
  - pose proof (shr_1_bounds mrs H) as H1.
    pose proof (IH _ (proj1 H1)) as H2.
    pose proof (IH _ (proj1 H2)) as H3. lia.
  - pose proof (IH _ H) as H1.
    pose proof (IH _ (proj1 H1)) as H2. lia.
  - now apply shr_1_bounds.
Qed.

Lemma shr_fexp_bounds (m e : Z) (l : location) :
  0 <= m ->
  0 <= shr_m (fst (shr_fexp prec emax m e l)) <= m
  /\ snd (shr_fexp prec emax m e l) = Z.max e (fexp prec emax (Zdigits2 m + e)).
Proof.
  intros Hm. unfold shr_fexp, shr.
  assert (Hr : shr_m (shr_record_of_loc m l) = m) by now destruct l as [|[]].
  destruct (fexp prec emax (Zdigits2 m + e) - e) as [|n|n] eqn:E; cbn [fst snd].
  - rewrite Hr. lia.
  - pose proof (iter_shr_1_bounds n (shr_record_of_loc m l)) as H.
    rewrite Hr in H. specialize (H Hm). lia.
  - rewrite Hr. lia.
Qed.

Lemma Zdigits2_nonneg (m : Z) : 0 <= Zdigits2 m.
Proof. destruct m; simpl; lia. Qed.

Lemma Zdigits2_below (m k : Z) : 0 <= k -> 0 <= m < 2 ^ k -> Zdigits2 m <= k.
Proof.
  intros Hk [Hlo Hhi]. destruct m as [|p|p]; cbn [Zdigits2]; try lia.
  now apply digits2_pos_below.
Qed.

Lemma round_nearest_even_bounds (m : Z) (l : location) :
  m <= round_nearest_even m l <= m + 1.
Proof.
  destruct l as [|[]]; cbn [round_nearest_even]; try lia.
  destruct (Z.even m); lia.
Qed.

(** Rounding a mantissa below [2^k] at a small exponent never gives an
    infinity. *)
Lemma binary_round_aux_finite (s : bool) (m e : Z) (l : location) (k : Z) :
  0 <= k <= 200 -> 0 <= m < 2 ^ k -> -200 <= e <= 0 ->
  forall s', binary_round_aux prec emax s m e l <> S754_infinity s'.
Proof.
  intros Hk Hm He s'. unfold binary_round_aux.
  pose proof (shr_fexp_bounds m e l (proj1 Hm)) as [Hm1 He1].
  pose proof (Zdigits2_below m k (proj1 Hk) Hm) as Hd.
  pose proof (Zdigits2_nonneg m) as Hd0.
  destruct (shr_fexp prec emax m e l) as [mrs1 e1]. cbn [fst snd] in *.
  set (m1 := round_nearest_even (shr_m mrs1) (loc_of_shr_record mrs1)).
  pose proof (round_nearest_even_bounds (shr_m mrs1) (loc_of_shr_record mrs1)) as Hr.
  fold m1 in Hr.
  assert (Hm1' : 0 <= m1 < 2 ^ (k + 1)).
  { rewrite Z.pow_add_r by lia. change (2 ^ 1) with 2. lia. }
  pose proof (shr_fexp_bounds m1 e1 loc_Exact (proj1 Hm1')) as [Hm2 He2].
  pose proof (Zdigits2_below m1 (k + 1) ltac:(lia) Hm1') as Hd1.
  pose proof (Zdigits2_nonneg m1) as Hd10.
  destruct (shr_fexp prec emax m1 e1 loc_Exact) as [mrs2 e2]. cbn [fst snd] in *.
  assert (Hle : (e2 <=? emax - prec) = true).
  { apply Z.leb_le. subst e2 e1. unfold fexp, emin, prec, emax in *. lia. }
  destruct (shr_m mrs2); try discriminate. now rewrite Hle.
Qed.

Lemma int_truediv_returns (u : Z) :
  0 <= u < 2 ^ 64 -> exists x, int_truediv u (1024 ^ 3) = Returned x.
Proof.
  intros [Hlo Hhi]. destruct u as [|q|q]; try lia.
  - now exists (S754_zero false).
  - pose proof (digits2_pos_below q 64 Hhi) as HD.
    pose proof (digits2_pos_bounds q) as Bq.
    set (D := Zpos (digits2_pos q)) in *.
    assert (HD0 : 0 < D) by (subst D; lia).
    unfold int_truediv. change (1024 ^ 3 =? 0) with false. cbv iota.
    change (Z2SF (Zpos q)) with (S754_finite false q 0).
    change (Z2SF (1024 ^ 3)) with (S754_finite false 1073741824 0).
    unfold SFdiv, SFdiv_core_binary.
    change (Zdigits2 (Zpos q)) with D.
    change (Zdigits2 1073741824) with 31.
    assert (He : Z.min (fexp prec emax (D + 0 - (31 + 0))) (0 - 0) = D - 84).
    { unfold fexp, emin, prec, emax. lia. }
    rewrite He.
    assert (Hs : 0 - 0 - (D - 84) = 84 - D) by lia. rewrite Hs.
    destruct (84 - D) as [|k|k] eqn:Ek; try lia. rewrite <- Ek.
    rewrite Z.shiftl_mul_pow2 by lia.
    set (m' := Zpos q * 2 ^ (84 - D)).
    assert (Hm' : 0 <= m' < 2 ^ 84).
    { subst m'. split; [lia|].
      replace 84 with (D + (84 - D)) at 2 by lia.
      rewrite Z.pow_add_r by lia.
      apply Z.mul_lt_mono_pos_r; [apply Z.pow_pos_nonneg; lia | lia]. }
    assert (E : Z.div_eucl m' 1073741824 = (m' / 1073741824, m' mod 1073741824)).
    { unfold Z.div, Z.modulo. now destruct (Z.div_eucl m' 1073741824). }
    rewrite E.
    assert (Hq : 0 <= m' / 1073741824 < 2 ^ 84).
    { split; [apply Z.div_pos; lia|].
      apply Z.le_lt_trans with m'; [|lia].
      apply Z.div_le_upper_bound; lia. }
    pose proof (binary_round_aux_finite (xorb false false) (m' / 1073741824) (D - 84)
                  (new_location 1073741824 (m' mod 1073741824)) 84
                  ltac:(lia) Hq ltac:(lia)) as Hfin.
    destruct (binary_round_aux prec emax (xorb false false) (m' / 1073741824) (D - 84)
                (new_location 1073741824 (m' mod 1073741824))) as [s0|s0| |s0 m0 e0];
      try (eexists; reflexivity).
    exfalso. now apply (Hfin s0).
Qed.

Lemma round_half_even_near (a e : Z) :
  0 <= a -> e < 0 ->
  0 <= round_half_even a e
  /\ 2 * Z.abs (a - round_half_even a e * 2 ^ (- e)) <= 2 ^ (- e).
Proof.
  intros Ha He. unfold round_half_even.
  destruct (0 <=? e) eqn:E; [apply Z.leb_le in E; lia|].
  set (d := 2 ^ (- e)).
  assert (Hd : 0 < d) by (apply Z.pow_pos_nonneg; lia).
  pose proof (Z.div_mod a d ltac:(lia)) as Hdm.
  pose proof (Z.mod_pos_bound a d Hd) as Hmod.
  assert (Hq : 0 <= a / d) by (apply Z.div_pos; lia).
  destruct (Z.compare_spec (2 * (a mod d)) d) as [Heq|Hlt|Hgt].
  - destruct (Z.even (a / d)); split; lia.
  - split; lia.
  - split; lia.
Qed.

(** A byte count below [2^53], divided by [1024**3] and rounded to two
    decimals, is the float nearest to [n / 100], [n] a number of
    hundredths nearest to the count of gigabytes. *)
Lemma used_gb_rounded (u : Z) :
  0 <= u < 2 ^ 53 ->
  exists x n,
    int_truediv u (1024 ^ 3) = Returned x
    /\ py_round x 2 = float_of_decimal false n 2
    /\ 0 <= n
    /\ 2 * Z.abs (100 * u - n * 2 ^ 30) <= 2 ^ 30.
Proof.
  intros [Hlo Hhi]. destruct u as [|q|q]; try lia.
  - exists (S754_zero false), 0. repeat split; try reflexivity. simpl. lia.
  - pose proof (digits2_pos_below q 53 Hhi) as HD.
    pose proof (int_truediv_exact q HD) as Hx. cbv zeta in Hx.
    set (D := Zpos (digits2_pos q)) in *.
    assert (HD0 : 0 < D) by (subst D; lia).
    set (m := Z.to_pos (Zpos q * 2 ^ (53 - D))) in *.
    exists (S754_finite false m (D - 83)), (decimal_units m (D - 83) 2).
    split; [exact Hx|]. split; [reflexivity|].
    set (c := 2 ^ (53 - D)).
    assert (Hc : 0 < c) by (apply Z.pow_pos_nonneg; lia).
    assert (Hm : Zpos m = Zpos q * c).
    { subst m c. rewrite Z2Pos.id; lia. }
    unfold decimal_units. change (10 ^ Z.of_nat 2) with 100.
    destruct (round_half_even_near (Zpos m * 100) (D - 83)) as [Hn Hnear]; try lia.
    set (n := round_half_even (Zpos m * 100) (D - 83)) in *.
    split; [exact Hn|].
    assert (Hpow : 2 ^ (- (D - 83)) = c * 2 ^ 30).
    { subst c. rewrite <- Z.pow_add_r by lia. f_equal. lia. }
    rewrite Hpow, Hm in Hnear.
    replace (Zpos q * c * 100 - n * (c * 2 ^ 30))
      with (c * (100 * Zpos q - n * 2 ^ 30)) in Hnear by ring.
    rewrite Z.abs_mul, (Z.abs_eq c) in Hnear by lia.
    apply (Z.mul_le_mono_pos_l _ _ c Hc). lia.
Qed.

(** C6.  Without a handle [memory] returns [0.0]: the process is as it
    was, so no telemetry call was made and nothing was printed.  With a
    handle it makes the one query.  When the query raises, it prints a
    warning and returns [0.0].  When the query answers, it returns the
    used bytes divided by [1024**3] and rounded to two decimals: the
    float nearest to [n / 100], where [n / 100] is within half a
    hundredth of the count of gigabytes (for a count below [2^53]
    bytes, which the division represents exactly; for any count of 64
    bits the result is the rounding of the float quotient, and no
    warning is printed). *)
Theorem memory_value (nvml : Nvml) (p : Process) :
  gpu.memory nvml None p = (p, Returned (VFloat float_zero))
  /\ (forall h e,
        nvmlDeviceGetMemoryInfo nvml h = Raised e ->
        gpu.memory nvml (Some h) p
        = (printed ("[WARNING] Failed to get GPU memory: " ++ str_exn e)
             (logged (CallGetMemoryInfo h) p),
           Returned (VFloat float_zero)))
  /\ (forall h info,
        nvmlDeviceGetMemoryInfo nvml h = Returned info ->
        0 <= mem_used info < 2 ^ 64 ->
        exists x,
          int_truediv (mem_used info) (1024 ^ 3) = Returned x
          /\ gpu.memory nvml (Some h) p
             = (logged (CallGetMemoryInfo h) p, Returned (VFloat (py_round x 2))))
  /\ (forall h info,
        nvmlDeviceGetMemoryInfo nvml h = Returned info ->
        0 <= mem_used info < 2 ^ 53 ->
        exists n,
          gpu.memory nvml (Some h) p
          = (logged (CallGetMemoryInfo h) p,
             Returned (VFloat (float_of_decimal false n 2)))
          /\ 0 <= n
          /\ 2 * Z.abs (100 * mem_used info - n * 2 ^ 30) <= 2 ^ 30).
Proof.
  split; [reflexivity|]. split; [|split].
  - intros h e H. unfold gpu.memory, try_except, bind, nv, ret. now rewrite H.
  - intros h info H Hu.
    destruct (int_truediv_returns (mem_used info) Hu) as [x Hx].
    exists x. split; [exact Hx|].
    unfold gpu.memory, try_except, bind, nv, ret, call. rewrite H.
    cbn [fst snd]. now rewrite Hx.
  - intros h info H Hu.
    destruct (used_gb_rounded (mem_used info) Hu) as [x [n [Hx [Hr [Hn Hnear]]]]].
    exists n. split; [|split; assumption].
    unfold gpu.memory, try_except, bind, nv, ret, call. rewrite H.
    cbn [fst snd]. rewrite Hx, Hr. reflexivity.
Qed.

(** The sample device uses 8514484634 bytes, 7.93 gigabytes; the handle
    2 is not a device. *)
Lemma memory_value_witness :
  (exists n,
     gpu.memory sample_nvml (Some 1) fresh_process
     = (logged (CallGetMemoryInfo 1) fresh_process,
        Returned (VFloat (float_of_decimal false n 2)))
     /\ 0 <= n
     /\ 2 * Z.abs (100 * 8514484634 - n * 2 ^ 30) <= 2 ^ 30)
  /\ gpu.memory sample_nvml (Some 2) fresh_process
     = (printed "[WARNING] Failed to get GPU memory: Invalid Argument"
          (logged (CallGetMemoryInfo 2) fresh_process),
        Returned (VFloat float_zero)).
Proof.
  pose proof (memory_value sample_nvml fresh_process) as [_ [Hfail [_ Hok]]].
  split.
  - refine (Hok 1 {| mem_total := 25769803776; mem_free := 17255319142;
                     mem_used := 8514484634 |} eq_refl _).
    cbn [mem_used]. split; [discriminate | reflexivity].
  - exact (Hfail 2 (mk_exn NVMLError "Invalid Argument") eq_refl).
Defined.

(** * Further properties *)

(** ** [gpu.init] *)

Ltac gpu_unfold :=
  unfold gpu.init, gpu.memory, gpu.utilization, outcome_of, state_after,
    try_except, bind, call, ret, nv, print, name_text in *;
  cbn [fst snd] in *.

(** X1.  [init] returns a handle exactly when the library starts, gives a
    handle for device 0 and a name for it, and the name is text; it then
    has made these three calls in this order and printed the name. *)
Theorem init_available (w : World) (nvml : Nvml) (p : Process) (h : handle) :
  (outcome_of (gpu.init w nvml) p = Returned (Some h)
   <-> nvmlInit nvml = Returned tt
       /\ nvmlDeviceGetHandleByIndex nvml 0 = Returned h
       /\ exists n name,
            nvmlDeviceGetName nvml h = Returned n /\ name_text w n = Returned name)
  /\ (forall n name,
        nvmlInit nvml = Returned tt ->
        nvmlDeviceGetHandleByIndex nvml 0 = Returned h ->
        nvmlDeviceGetName nvml h = Returned n ->
        name_text w n = Returned name ->
        gpu.init w nvml p
        = ({| environ := environ p;
              stdout := stdout p ++ ["[GPU] Using " ++ name];
              nv_calls := nv_calls p
                          ++ [CallInit; CallGetHandleByIndex 0; CallGetName h] |},
           Returned (Some h))).
Proof.
  split.
  - split.
    + gpu_unfold.
      destruct (nvmlInit nvml) as [[]|e0]; cbn [fst snd]; try discriminate.
      destruct (nvmlDeviceGetHandleByIndex nvml 0) as [h0|e1]; cbn [fst snd];
        try discriminate.
      destruct (nvmlDeviceGetName nvml h0) as [n|e2] eqn:En; cbn [fst snd];
        try discriminate.
      destruct n as [raw|s]; cbn [fst snd].
      * destruct (bytes_decode w raw) as [name|e3] eqn:Ed; cbn [fst snd];
          try discriminate.
        intros H. inversion H; subst h0. repeat split; auto.
        exists (NameBytes raw), name. now split.
      * intros H. inversion H; subst h0. repeat split; auto.
        exists (NameStr s), s. now split.
    + intros [Hi [Hh [n [name [Hn Ht]]]]]. gpu_unfold.
      rewrite Hi. cbn [fst snd]. rewrite Hh. cbn [fst snd]. rewrite Hn.
      cbn [fst snd]. destruct n as [raw|s].
      * now rewrite Ht.
      * now inversion Ht.
  - intros n name Hi Hh Hn Ht. gpu_unfold.
    rewrite Hi. cbn [fst snd]. rewrite Hh. cbn [fst snd]. rewrite Hn.
    cbn [fst snd]. destruct n as [raw|s].
    + rewrite Ht. cbn [fst snd environ stdout nv_calls].
      rewrite <- !app_assoc. reflexivity.
    + inversion Ht; subst. cbn [fst snd environ stdout nv_calls].
      rewrite <- !app_assoc. reflexivity.
Qed.

(** The sample device is found, with its handle 1. *)
Lemma init_available_witness :
  gpu.init sample_world sample_nvml fresh_process
  = ({| environ := [];
        stdout := ["[GPU] Using NVIDIA GeForce RTX 3090"];
        nv_calls := [CallInit; CallGetHandleByIndex 0; CallGetName 1] |},
     Returned (Some 1)).
Proof.
  exact (proj2 (init_available sample_world sample_nvml fresh_process 1)
           (NameStr "NVIDIA GeForce RTX 3090") "NVIDIA GeForce RTX 3090"
           eq_refl eq_refl eq_refl eq_refl).
Defined.

(** X2.  [init] never raises, and leaves the environment alone.  When it
    gives no handle it has printed one line and nothing else: the
    warning with the text of the exception that stopped it, which is
    the one raised by the start of the library, or by the lookup of
    device 0 after the start, or by the lookup of the name of the handle
    obtained, or by the decoding of the bytes received as that name. *)
Theorem init_unavailable (w : World) (nvml : Nvml) (p : Process) :
  exists r,
    outcome_of (gpu.init w nvml) p = Returned r
    /\ environ (state_after (gpu.init w nvml) p) = environ p
    /\ (r = None ->
        exists e,
          stdout (state_after (gpu.init w nvml) p)
          = (stdout p
             ++ [("[WARNING] GPU monitoring is not available: " ++ str_exn e)%string])%list
          /\ (nvmlInit nvml = Raised e
              \/ (nvmlInit nvml = Returned tt
                  /\ nvmlDeviceGetHandleByIndex nvml 0 = Raised e)
              \/ (exists h,
                    nvmlInit nvml = Returned tt
                    /\ nvmlDeviceGetHandleByIndex nvml 0 = Returned h
                    /\ nvmlDeviceGetName nvml h = Raised e)
              \/ (exists h raw,
                    nvmlInit nvml = Returned tt
                    /\ nvmlDeviceGetHandleByIndex nvml 0 = Returned h
                    /\ nvmlDeviceGetName nvml h = Returned (NameBytes raw)
                    /\ bytes_decode w raw = Raised e))).
Proof.
  gpu_unfold.
  destruct (nvmlInit nvml) as [[]|e0] eqn:Ei; cbn [fst snd].
  2:{ eexists. split; [reflexivity|]. split; [reflexivity|].
      intros _. exists e0. split; [reflexivity | now left]. }
  destruct (nvmlDeviceGetHandleByIndex nvml 0) as [h0|e1] eqn:Eh; cbn [fst snd].
  2:{ eexists. split; [reflexivity|]. split; [reflexivity|].
      intros _. exists e1. split; [reflexivity | right; left; now split]. }
  destruct (nvmlDeviceGetName nvml h0) as [n|e2] eqn:En; cbn [fst snd].
  2:{ eexists. split; [reflexivity|]. split; [reflexivity|].
      intros _. exists e2.
      split; [reflexivity | right; right; left; exists h0; now repeat split]. }
  destruct n as [raw|s]; cbn [fst snd].
  - destruct (bytes_decode w raw) as [name|e3] eqn:Ed; cbn [fst snd].
    + eexists. split; [reflexivity|]. split; [reflexivity|]. discriminate.
    + eexists. split; [reflexivity|]. split; [reflexivity|].
      intros _. exists e3.
      split; [reflexivity | right; right; right; exists h0, raw; now repeat split].
  - eexists. split; [reflexivity|]. split; [reflexivity|]. discriminate.
Qed.

(** ** [gpu.memory] and [gpu.utilization] *)

Lemma memory_returns_float (nvml : Nvml) (h : option handle) (p : Process) :
  exists f, outcome_of (gpu.memory nvml h) p = Returned (VFloat f).
Proof.
  destruct h as [h|]; [|now exists float_zero].
  gpu_unfold.
  destruct (nvmlDeviceGetMemoryInfo nvml h) as [info|e]; cbn [fst snd].
  - destruct (int_truediv (mem_used info) (1024 ^ 3)) as [x|e]; cbn [fst snd];
      eexists; reflexivity.
  - eexists; reflexivity.
Qed.

Lemma init_returns (w : World) (nvml : Nvml) (p : Process) :
  exists r, outcome_of (gpu.init w nvml) p = Returned r.
Proof.
  gpu_unfold.
  destruct (nvmlInit nvml) as [[]|e0]; cbn [fst snd]; [|eexists; reflexivity].
  destruct (nvmlDeviceGetHandleByIndex nvml 0) as [h0|e1]; cbn [fst snd];
    [|eexists; reflexivity].
  destruct (nvmlDeviceGetName nvml h0) as [[raw|s]|e2]; cbn [fst snd];
    try (eexists; reflexivity).
  destruct (bytes_decode w raw) as [name|e3]; cbn [fst snd]; eexists; reflexivity.
Qed.

(** X3.  The two queries never raise, whatever the handle is and whatever the
    library answers or raises, and [memory] returns a float in every
    case. *)
Theorem monitor_never_raises (nvml : Nvml) (h : option handle) (p : Process) :
  (exists f, outcome_of (gpu.memory nvml h) p = Returned (VFloat f))
  /\ (exists v, outcome_of (gpu.utilization nvml h) p = Returned v).
Proof.
  split.
  - apply memory_returns_float.
  - destruct h as [h|]; [|now eexists].
    gpu_unfold.
    destruct (nvmlDeviceGetUtilizationRates nvml h) as [u|e]; cbn [fst snd];
      eexists; reflexivity.
Qed.

(** X4.  [init] and then [memory] on what it gave: no exception, a float;
    and when [init] gave no handle, [memory] adds no telemetry call and
    no line to what [init] left. *)
Theorem init_then_memory (w : World) (nvml : Nvml) (p : Process) :
  (exists f,
     outcome_of (h <- gpu.init w nvml ;; gpu.memory nvml h) p = Returned (VFloat f))
  /\ (outcome_of (gpu.init w nvml) p = Returned None ->
      (h <- gpu.init w nvml ;; gpu.memory nvml h) p
      = (state_after (gpu.init w nvml) p, Returned (VFloat float_zero))).
Proof.
  destruct (init_returns w nvml p) as [r Hr].
  unfold outcome_of, state_after in *. unfold bind.
  destruct (gpu.init w nvml p) as [p1 o1]. cbn [fst snd] in *. subst o1.
  split.
  - exact (memory_returns_float nvml r p1).
  - intros H. inversion H; subst r. reflexivity.
Qed.

(** X5.  A device that uses fewer than 5368709 bytes (0.005 gigabytes) is
    reported as [0.0], the value [memory] also gives when there is no
    handle or the query fails. *)
Theorem memory_small_is_zero (nvml : Nvml) (h : handle) (info : MemoryInfo)
    (p : Process) :
  nvmlDeviceGetMemoryInfo nvml h = Returned info ->
  0 <= mem_used info ->
  200 * mem_used info < 2 ^ 30 ->
  gpu.memory nvml (Some h) p
  = (logged (CallGetMemoryInfo h) p, Returned (VFloat float_zero)).
Proof.
  intros H Hlo Hhi.
  assert (Hu : 0 <= mem_used info < 2 ^ 53) by lia.
  destruct (used_gb_rounded (mem_used info) Hu) as [x [n [Hx [Hr [Hn Hnear]]]]].
  assert (n = 0) by lia. subst n.
  unfold gpu.memory, try_except, bind, nv, ret, call. rewrite H.
  cbn [fst snd]. rewrite Hx, Hr. reflexivity.
Qed.

(** Five million bytes in use. *)
Lemma memory_small_is_zero_witness :
  gpu.memory idle_nvml (Some 1) fresh_process
  = (logged (CallGetMemoryInfo 1) fresh_process, Returned (VFloat float_zero)).
Proof.
  refine (memory_small_is_zero idle_nvml 1
            {| mem_total := 25769803776; mem_free := 25764803776;
               mem_used := 5000000 |} fresh_process eq_refl _ _).
  - discriminate.
  - reflexivity.
Defined.

(** ** [check_gpu_memory] *)

Lemma int_truediv_fraction (u : Z) :
  0 <= u < 2 ^ 53 ->
  exists x, int_truediv u (1024 ^ 3) = Returned x /\ float_is_fraction x u (2 ^ 30).
Proof.
  intros [Hlo Hhi]. destruct u as [|q|q]; try lia.
  - exists (S754_zero false). now split.
  - pose proof (digits2_pos_below q 53 Hhi) as HD.
    pose proof (int_truediv_exact q HD) as Hx. cbv zeta in Hx.
    set (D := Zpos (digits2_pos q)) in *.
    assert (HD0 : 0 < D) by (subst D; lia).
    eexists. split; [exact Hx|].
    unfold float_is_fraction.
    destruct (0 <=? D - 83) eqn:E; [apply Z.leb_le in E; lia|].
    assert (Hc : 0 < 2 ^ (53 - D)) by (apply Z.pow_pos_nonneg; lia).
    rewrite Z2Pos.id by lia.
    replace (- (D - 83)) with ((53 - D) + 30) by lia.
    rewrite Z.pow_add_r by lia. ring.
Qed.

(** X6.  When the library answers, [check_gpu_memory] makes its three calls
    in order, for the device index it was given, and records the free
    and the total byte counts divided by [1024**3] as they are, not
    rounded: for counts below [2^53] the recorded floats are exactly the
    counts over [2^30].  Only the printed line is rounded to two
    decimals. *)
Theorem gpu_memory_recorded (w : World) (device_index : Z)
    (s : SetupChecker * Process) (nvml : Nvml) (h : handle) (info : MemoryInfo) :
  import_pynvml w = Returned nvml ->
  nvmlInit nvml = Returned tt ->
  nvmlDeviceGetHandleByIndex nvml device_index = Returned h ->
  nvmlDeviceGetMemoryInfo nvml h = Returned info ->
  0 <= mem_free info < 2 ^ 53 ->
  0 <= mem_total info < 2 ^ 53 ->
  exists free_gb total_gb,
    float_is_fraction free_gb (mem_free info) (2 ^ 30)
    /\ float_is_fraction total_gb (mem_total info) (2 ^ 30)
    /\ check_gpu_memory w device_index s
       = (recorded "gpu_memory"
            (VDict [("free_gb", VFloat free_gb); ("total_gb", VFloat total_gb)])
            ("GPU memory: " ++ format_fixed free_gb 2 ++ " / "
             ++ format_fixed total_gb 2 ++ " GB free")
            (fst s,
             logged (CallGetMemoryInfo h)
               (logged (CallGetHandleByIndex device_index)
                  (logged CallInit (snd s)))),
          Returned tt).
Proof.
  intros Hi Hinit Hh Hinfo Hfree Htotal.
  destruct (int_truediv_fraction _ Hfree) as [x [Hx Fx]].
  destruct (int_truediv_fraction _ Htotal) as [y [Hy Fy]].
  exists x, y. split; [exact Fx|]. split; [exact Fy|].
  py_unfold. rewrite Hi. cbn [fst snd]. rewrite Hinit. cbn [fst snd].
  rewrite Hh. cbn [fst snd]. rewrite Hinfo. cbn [fst snd].
  rewrite Hx. cbn [fst snd]. rewrite Hy. reflexivity.
Qed.

(** The sample device: 24 gigabytes, 16.07 of them free. *)
Lemma gpu_memory_recorded_witness :
  exists free_gb total_gb,
    float_is_fraction free_gb 17255319142 (2 ^ 30)
    /\ float_is_fraction total_gb 25769803776 (2 ^ 30)
    /\ results_of (state_after (check_gpu_memory sample_world 0)
                     (init_default, fresh_process))
       = [("gpu_memory",
           VDict [("free_gb", VFloat free_gb); ("total_gb", VFloat total_gb)])].
Proof.
  assert (Hf : 0 <= 17255319142 < 2 ^ 53) by (split; [discriminate | reflexivity]).
  assert (Ht : 0 <= 25769803776 < 2 ^ 53) by (split; [discriminate | reflexivity]).
  destruct (gpu_memory_recorded sample_world 0 (init_default, fresh_process)
              sample_nvml 1
              {| mem_total := 25769803776; mem_free := 17255319142;
                 mem_used := 8514484634 |}
              eq_refl eq_refl eq_refl eq_refl Hf Ht)
    as [x [y [Fx [Fy E]]]].
  exists x, y. split; [exact Fx|]. split; [exact Fy|].
  unfold state_after. rewrite E. reflexivity.
Defined.

(** ** What the checks print *)

(** A check without a [try] block either raises, having printed
    nothing, or assigns one entry and prints one line. *)
Lemma plain_check_cases (w : World) (op : check) (s : SetupChecker * Process) :
  try_block w op = None ->
  (exists s' e, run_check w op s = (s', Raised e) /\ stdout (snd s') = stdout (snd s))
  \/ (exists v line, run_check w op s = (recorded (check_key op) v line s, Returned tt)).
Proof.
  intros Hb. destruct op; try discriminate; cbn [run_check check_key].
  - right. eexists _, _. apply check_python_eq.
  - destruct (path_exists w (env_path (fst s))) eqn:He.
    + assert (Hne : env_path (fst s) <> "").
      { intros E. unfold path_exists in He. rewrite E in He. discriminate. }
      destruct (fs w (env_path (fst s))) as [|content|e] eqn:Hfs.
      * unfold path_exists in He. rewrite Hfs in He.
        destruct (_ =? _)%string; discriminate.
      * right. eexists _, _. apply (check_env_file w s content Hne Hfs).
      * left. exists s, e. split; [apply (check_env_unreadable w s e Hne Hfs) | reflexivity].
    + right. eexists _, _. apply (check_env_absent w s He).
  - right. eexists _, _. apply check_model_path_eq.
  - destruct (forallb (import_settled w) (dependencies (fst s))) eqn:Hs.
    + rewrite (check_dependencies_settled w s Hs).
      destruct (stdout_encode w _) as [[]|e].
      * right. eexists _, _. reflexivity.
      * left. eexists _, e. split; reflexivity.
    + left. destruct (check_dependencies_unsettled w s Hs) as [e [He _]].
      exists s, e. now split.
Qed.

Lemma run_check_lines (w : World) (op : check) (s : SetupChecker * Process) :
  exists lines,
    stdout (snd (state_after (run_check w op) s)) = (stdout (snd s) ++ lines)%list
    /\ match outcome_of (run_check w op) s with
       | Returned _ => lines <> []
       | Raised _ => True
       end.
Proof.
  destruct (try_block w op) as [body|] eqn:Hb.
  - destruct op; try discriminate; clear Hb body;
      py_unfold; py_cases; cbn [stdout];
      rewrite <- ?app_assoc; eexists; (split; [reflexivity | discriminate]).
  - destruct (plain_check_cases w op s Hb) as [[s' [e [E Hs']]]|[v [line E]]];
      unfold state_after, outcome_of; rewrite E; cbn [fst snd].
    + exists []. rewrite app_nil_r. now split.
    + exists [line]. split; [reflexivity | discriminate].
Qed.

(** X8.  A check takes no line back from the output and changes none: what
    was printed before it is still there, followed by the lines of the
    check, and a check that returns has printed at least one line. *)
Theorem checks_print (w : World) (op : check) (s : SetupChecker * Process) :
  exists lines,
    stdout (snd (state_after (run_check w op) s)) = (stdout (snd s) ++ lines)%list
    /\ (outcome_of (run_check w op) s = Returned tt -> lines <> []).
Proof.
  destruct (run_check_lines w op s) as [lines [Hl Hr]].
  exists lines. split; [exact Hl|].
  intros H. now rewrite H in Hr.
Qed.

(** ** Reading the entries *)

(** X9.  After [check_pytorch], [check_gpu_memory] or [check_dotenv] the entry
    of the check is a mapping, and it has the key ["error"] exactly when
    the [try] block of the check raised. *)
Theorem error_key_iff_raised (w : World) (op : check) (body : Meth unit)
    (s : SetupChecker * Process) :
  try_block w op = Some body ->
  exists d,
    dict_get (check_key op) (results_of (state_after (run_check w op) s))
    = Some (VDict d)
    /\ (dict_has "error" d = true <-> exists e, outcome_of body s = Raised e).
Proof.
  destruct op; cbn [try_block]; intros H; inversion H; subst body; clear H;
    cbn [check_key]; py_unfold; py_cases; cbn [results];
    rewrite dict_get_set_same; eexists; (split; [reflexivity|]);
    (split; [intros H; try discriminate H; eexists; reflexivity
            | intros [e' H]; try discriminate H; reflexivity]).
Qed.

(** Without [torch] the entry has the key; with it and no CUDA it has
    not. *)
Lemma error_key_iff_raised_witness :
  (exists d,
     dict_get "pytorch"
       (results_of (state_after (check_pytorch bare_world) (init_default, fresh_process)))
     = Some (VDict d) /\ dict_has "error" d = true)
  /\ (exists d,
        dict_get "pytorch"
          (results_of (state_after (check_pytorch sample_world)
                         (init_default, fresh_process)))
        = Some (VDict d) /\ dict_has "error" d = false).
Proof.
  split.
  - destruct (error_key_iff_raised bare_world CheckPytorch (pytorch_try bare_world)
                (init_default, fresh_process) eq_refl) as [d [Hd Hiff]].
    exists d. split; [exact Hd|]. apply Hiff. eexists. reflexivity.
  - destruct (error_key_iff_raised sample_world CheckPytorch (pytorch_try sample_world)
                (init_default, fresh_process) eq_refl) as [d [Hd Hiff]].
    exists d. split; [exact Hd|].
    destruct (dict_has "error" d); [|reflexivity].
    destruct (proj1 Hiff eq_refl) as [e He]. discriminate He.
Defined.

(** X10.  The test of the class docstring,
    [results["pytorch"].get("cuda_available")], is true exactly when
    [torch] imports, reports CUDA as available and names device 0: a
    failing name lookup turns the whole entry into an error, for which
    the test is false. *)
Theorem pytorch_cuda_flag (w : World) (s : SetupChecker * Process) :
  match dict_get "pytorch" (results_of (state_after (check_pytorch w) s)) with
  | Some entry => entry_flag "cuda_available" entry
  | None => false
  end = true
  <-> exists torch name,
        import_torch w = Returned torch
        /\ cuda_is_available torch = Returned true
        /\ cuda_get_device_name torch 0 = Returned name.
Proof.
  py_unfold.
  destruct (import_torch w) as [t|e0]; cbn [fst snd results].
  2:{ rewrite dict_get_set_same. split; [discriminate|].
      intros [t' [n [H _]]]. discriminate H. }
  destruct (cuda_is_available t) as [[|]|e1] eqn:Ea; cbn [fst snd results].
  - destruct (cuda_get_device_name t 0) as [name|e2] eqn:En; cbn [fst snd results].
    + py_cases; cbn [results]; rewrite dict_get_set_same; cbn;
        (split; [intros _; exists t, name; repeat split; assumption | reflexivity]).
    + rewrite dict_get_set_same. split; [discriminate|].
      intros [t' [n [Ht [Ha' Hn]]]]. inversion Ht; subst t'. congruence.
  - cbn [val_of_option truthy fst snd results]. rewrite dict_get_set_same. cbn.
    split; [discriminate|].
    intros [t' [n [Ht [Ha' Hn]]]]. inversion Ht; subst t'. congruence.
  - rewrite dict_get_set_same. split; [discriminate|].
    intros [t' [n [Ht [Ha' Hn]]]]. inversion Ht; subst t'. congruence.
Qed.

(** ** The keys of the results mapping *)







(** ** [check_dotenv], then [check_model_path] *)

Lemma check_dotenv_environ (w : World) (s : SetupChecker * Process) (d : Dotenv)
    (env' : environ_t) (o : outcome bool) :
  import_dotenv w = Returned d ->
  load_dotenv d (env_path (fst s)) (environ (snd s)) = (env', o) ->
  outcome_of (check_dotenv w) s = Returned tt
  /\ environ (snd (state_after (check_dotenv w) s)) = env'
  /\ config_of (state_after (check_dotenv w) s) = config_of s.
Proof.
  intros Hd Hl. py_unfold. rewrite Hd. cbn [fst snd]. rewrite Hl.
  destruct o; repeat split.
Qed.

(** X12.  What [load_dotenv] wrote is what [check_model_path] reads: without an
    explicit model path, the model entry after [check_dotenv] and
    [check_model_path] is that of the [MODEL_PATH] in the environment
    [load_dotenv] left, also when [load_dotenv] raised after writing
    it. *)
Theorem dotenv_feeds_model_path (w : World) (s : SetupChecker * Process)
    (d : Dotenv) (env' : environ_t) (o : outcome bool) (v : string) :
  import_dotenv w = Returned d ->
  load_dotenv d (env_path (fst s)) (environ (snd s)) = (env', o) ->
  model_path (fst s) = None ->
  environ_get "MODEL_PATH" env' = Some v ->
  dict_get "model"
    (results_of (state_after (check_dotenv w ;; check_model_path w) s))
  = Some (VDict [("found", VBool (path_exists w v)); ("path", VStr v)]).
Proof.
  intros Hd Hl Hm Hv.
  destruct (check_dotenv_environ w s d env' o Hd Hl) as [Ho [He Hc]].
  unfold state_after, outcome_of in *. rewrite bind_eq.
  destruct (check_dotenv w s) as [s1 o1]. cbn [fst snd] in *. subst o1.
  rewrite check_model_path_eq. cbn [fst]. rewrite recorded_results, dict_get_set_same.
  assert (Hp : resolved_path s1 = v).
  { unfold resolved_path. unfold config_of in Hc. inversion Hc as [[H1 H2 H3]].
    rewrite H2, Hm, He, Hv. reflexivity. }
  now rewrite Hp.
Qed.

(** The sample configuration file names the model directory. *)
Lemma dotenv_feeds_model_path_witness :
  dict_get "model"
    (results_of (state_after (check_dotenv sample_world ;; check_model_path sample_world)
                   (init_default, fresh_process)))
  = Some (VDict [("found", VBool true); ("path", VStr "/models/whisper")]).
Proof.
  exact (dotenv_feeds_model_path sample_world (init_default, fresh_process)
           sample_dotenv [("MODEL_PATH", "/models/whisper")] (Returned true)
           "/models/whisper" eq_refl eq_refl eq_refl eq_refl).
Defined.

(** ** Lines of the configuration file, again *)

Lemma first_visible_indent (ws l : string) :
  all_space ws = true -> first_visible (ws ++ l) = first_visible l.
Proof.
  induction ws as [|c ws IH]; simpl; auto.
  intros H. apply andb_prop in H as [Hc Hws]. rewrite Hc. auto.
Qed.

Lemma first_visible_blank (ws : string) :
  all_space ws = true -> first_visible ws = None.
Proof.
  induction ws as [|c ws IH]; simpl; auto.
  intros H. apply andb_prop in H as [Hc Hws]. rewrite Hc. auto.
Qed.

(** X13.  Indentation does not count: a line of white space only is not an
    entry, white space before a line does not change whether it is one,
    and a [#] after white space only starts a comment. *)
Theorem indentation_ignored (ws l : string) :
  all_space ws = true ->
  keep_line ws = false
  /\ keep_line (ws ++ l) = keep_line l
  /\ keep_line (ws ++ String "#" l) = false.
Proof.
  intros H. rewrite !keep_line_data_line. unfold is_data_line.
  rewrite !first_visible_indent by assumption.
  rewrite (first_visible_blank ws H).
  repeat split.
Qed.

(** Two spaces, before an entry and before a comment. *)
Lemma indentation_ignored_witness :
  keep_line "  " = false
  /\ keep_line ("  " ++ "PORT=8000") = keep_line "PORT=8000"
  /\ keep_line ("  " ++ "#PORT=8000") = false.
Proof. exact (indentation_ignored "  " "PORT=8000" eq_refl). Defined.

(** ** The output of [run_all] *)

Lemma skipn_length_app {A} (l mid : list A) :
  skipn (List.length l) (l ++ mid) = mid.
Proof. induction l as [|x l IH]; simpl; auto. Qed.

(** The checks add their lines after those that were there; when they
    all return there is at least one line for each. *)
Lemma run_checks_lines (w : World) (ops : list check) :
  forall s, exists mid,
    stdout (snd (state_after (run_checks w ops) s)) = (stdout (snd s) ++ mid)%list
    /\ (outcome_of (run_checks w ops) s = Returned tt ->
        List.length ops <= List.length mid)%nat.
Proof.
  induction ops as [|op ops IH]; intros s.
  - exists []. simpl. rewrite app_nil_r. split; [reflexivity | intros _; apply Nat.le_refl].
  - destruct (run_check_lines w op s) as [lines [Hl Hr]].
    unfold state_after, outcome_of in *. cbn [run_checks]. rewrite bind_eq.
    destruct (run_check w op s) as [s1 [[]|e]]; cbn [fst snd] in *.
    + destruct (IH s1) as [mid [Hm Hn]]. exists (lines ++ mid)%list. split.
      * now rewrite Hm, Hl, app_assoc.
      * intros H. specialize (Hn H). rewrite length_app.
        destruct lines; [contradiction|]. simpl. lia.
    + exists lines. split; [assumption | discriminate].
Qed.

(** X14.  When [run_all] returns, what it returns is the results mapping of
    the checker, and what it printed is its three header lines, then the
    lines the checks of [run_all] printed, run in their order from the
    state after the header, then its three footer lines; every check has
    printed at least one line. *)
Theorem run_all_output (w : World) (s : SetupChecker * Process) (r : pydict) :
  outcome_of (run_all w) s = Returned r ->
  let checks := checks_of (dependencies (fst s)) in
  let lines := printed_by (run_checks w checks) (state_after (io run_all_header) s) in
  r = results_of (state_after (run_all w) s)
  /\ stdout (snd (state_after (run_all w) s))
     = (stdout (snd s)
        ++ [banner; "Server setup verification"; banner]
        ++ lines
        ++ [banner; "End of checks"; banner])%list
  /\ (List.length checks <= List.length lines)%nat.
Proof.
  intros Hret checks lines. subst lines checks. unfold printed_by.
  revert Hret.
  unfold outcome_of, state_after at 1 2. rewrite run_all_sequence.
  rewrite bind_eq.
  destruct (header_state s) as [Hh _]. rewrite Hh. clear Hh.
  set (s0 := state_after (io run_all_header) s).
  assert (H0 : stdout (snd s0)
               = (stdout (snd s) ++ [banner; "Server setup verification"; banner])%list).
  { subst s0. cbn. now rewrite <- !app_assoc. }
  rewrite bind_eq.
  destruct (run_checks_lines w (checks_of (dependencies (fst s))) s0) as [mid [Hm Hn]].
  rewrite Hm, skipn_length_app.
  unfold state_after, outcome_of in Hm, Hn.
  destruct (run_checks w (checks_of (dependencies (fst s))) s0) as [s1 [[]|e]];
    cbn [fst snd] in *; [|discriminate].
  intros H. inversion H; subst r. split; [reflexivity|]. split.
  - cbn. rewrite Hm, H0. now rewrite <- !app_assoc.
  - now apply Hn.
Qed.

(** A checker without configuration file on the machine without GPU
    libraries: six checks, one line each. *)
Lemma run_all_output_witness :
  stdout (snd (state_after (run_all bare_world)
                 (init "nothing" None None, fresh_process)))
  = [banner; "Server setup verification"; banner;
     "Python version: 3.11.4 (main, Jun  7 2023, 10:13:09) [GCC 12.2.0]";
     "PyTorch error: No module named 'torch'";
     "GPU memory error: No module named 'pynvml'";
     "Unable to reach environment variables";
     "Dotenv error: No module named 'dotenv'";
     "Model not found: ";
     banner; "End of checks"; banner].
Proof.
  assert (H : outcome_of (run_all bare_world) (init "nothing" None None, fresh_process)
              = Returned (results_of (state_after (run_all bare_world)
                                        (init "nothing" None None, fresh_process))))
    by (vm_compute; reflexivity).
  destruct (run_all_output bare_world (init "nothing" None None, fresh_process) _ H)
    as [_ [Hm _]].
  rewrite Hm. vm_compute. reflexivity.
Defined.

(** ** When the checks without a handler raise *)

Lemma env_uncheckable_cases (w : World) (path : string) :
  env_checkable w path = false ->
  path <> "" /\ exists e, fs w path = OpenFails e.
Proof.
  unfold env_checkable, path_exists.
  destruct (String.eqb_spec path "") as [->|Hne].
  - destruct (fs w ""); discriminate.
  - destruct (fs w path) as [|content|e]; try discriminate.
    intros _. split; auto. now exists e.
Qed.

(** X15.  [check_env] raises exactly when the configured path is there and
    cannot be opened or read as text; the exception is the one of the
    file system, and the checker and the process are as they were:
    nothing recorded, nothing printed. *)
Theorem check_env_raises_iff (w : World) (s : SetupChecker * Process) :
  ((exists e, outcome_of (check_env w) s = Raised e)
   <-> env_checkable w (env_path (fst s)) = false)
  /\ (forall e, outcome_of (check_env w) s = Raised e ->
        fs w (env_path (fst s)) = OpenFails e /\ state_after (check_env w) s = s).
Proof.
  destruct (env_checkable w (env_path (fst s))) eqn:Hc.
  - pose proof (settled_check_returns w CheckEnv s Hc) as Hr.
    cbn [run_check] in Hr. split.
    + split; [|discriminate]. intros [e He]. congruence.
    + intros e He. congruence.
  - destruct (env_uncheckable_cases w _ Hc) as [Hne [e Hfs]].
    unfold outcome_of, state_after.
    rewrite (check_env_unreadable w s e Hne Hfs). cbn [fst snd]. split.
    + split; auto. intros _. now exists e.
    + intros e' He. inversion He; subst e'. now split.
Qed.

Lemma check_env_raises_iff_witness :
  exists e, outcome_of (check_env sample_world) (locked_checker, fresh_process) = Raised e.
Proof.
  exact (proj2 (proj1 (check_env_raises_iff sample_world (locked_checker, fresh_process)))
           eq_refl).
Defined.

Lemma probe_dependencies_raised (w : World) (deps : list string) :
  forall missing s s' e,
    probe_dependencies w deps missing s = (s', Raised e) ->
    is_ImportError e = false /\ exists d, In d deps /\ import_module w d = Raised e.
Proof.
  induction deps as [|dep deps IH]; intros missing s s' e; cbn [probe_dependencies].
  - discriminate.
  - rewrite bind_eq. unfold try_except_if, bind, call, ret.
    destruct (import_module w dep) as [[]|e0] eqn:Ed.
    + intros H. destruct (IH _ _ _ _ H) as [Hi [d [Hin Hd]]].
      split; auto. exists d. split; [now right | assumption].
    + destruct (is_ImportError e0) eqn:Ei.
      * intros H. destruct (IH _ _ _ _ H) as [Hi [d [Hin Hd]]].
        split; auto. exists d. split; [now right | assumption].
      * intros H. inversion H; subst. split; auto.
        exists dep. split; [now left | assumption].
Qed.

(** X16.  [check_dependencies] raises in two cases and no other.  Either the
    import of a configured name raises something else than
    [ImportError]: the exception is that of such an import and no entry
    is written, also for the names found missing before.  Or every
    import is settled and standard output cannot encode the mark of the
    line: the exception is that of the encoder, and the entry, with the
    list of the missing names, is already written. *)
Theorem check_dependencies_raises_iff (w : World) (s : SetupChecker * Process) :
  let deps := dependencies (fst s) in
  let missing := filter (import_fails w) deps in
  ((exists e, outcome_of (check_dependencies w) s = Raised e)
   <-> forallb (import_settled w) deps = false \/ report_encodable w deps = false)
  /\ (forall e, outcome_of (check_dependencies w) s = Raised e ->
        (forallb (import_settled w) deps = false
         /\ is_ImportError e = false
         /\ (exists d, In d deps /\ import_module w d = Raised e)
         /\ results_of (state_after (check_dependencies w) s) = results_of s)
        \/ (forallb (import_settled w) deps = true
            /\ stdout_encode w (dependencies_mark missing) = Raised e
            /\ results_of (state_after (check_dependencies w) s)
               = dict_set "dependencies" (VDict [("missing", VList (map VStr missing))])
                   (results_of s))).
Proof.
  intros deps missing. subst deps.
  destruct (forallb (import_settled w) (dependencies (fst s))) eqn:Hc.
  - destruct (report_encodable w (dependencies (fst s))) eqn:He.
    + assert (Hs : check_settled w CheckDependencies s = true).
      { cbn [check_settled]. now rewrite Hc, He. }
      pose proof (settled_check_returns w CheckDependencies s Hs) as Hr.
      cbn [run_check] in Hr. split.
      * split; [|intros [H|H]; discriminate H]. intros [e E]. congruence.
      * intros e E. congruence.
    + destruct (check_dependencies_unencodable w s Hc He) as [e [Henc E]].
      fold missing in Henc, E.
      unfold outcome_of, state_after. rewrite E. cbn [fst snd]. split.
      * split; [now right | intros _; now exists e].
      * intros e' He'. inversion He'; subst e'. right. repeat split; auto.
  - destruct (probe_dependencies_unsettled w _ [] s Hc) as [e [Hp Hi]].
    destruct (probe_dependencies_raised w _ _ _ _ _ Hp) as [_ Hd].
    assert (E : check_dependencies w s = (s, Raised e)).
    { unfold check_dependencies, bind at 1, self. unfold bind at 1. cbn [fst snd].
      now rewrite Hp. }
    unfold outcome_of, state_after. rewrite E. cbn [fst snd]. split.
    + split; [now left | intros _; now exists e].
    + intros e' He. inversion He; subst e'. left. repeat split; auto.
Qed.

(** The import that raises [OSError], and the stream in code page
    1252. *)
Lemma check_dependencies_raises_iff_witness :
  (exists e,
     outcome_of (check_dependencies sample_world) (broken_dep_checker, fresh_process)
     = Raised e)
  /\ (exists e,
        outcome_of (check_dependencies cp1252_world) (one_dep_checker, fresh_process)
        = Raised e).
Proof.
  split.
  - exact (proj2 (proj1 (check_dependencies_raises_iff sample_world
                           (broken_dep_checker, fresh_process))) (or_introl eq_refl)).
  - exact (proj2 (proj1 (check_dependencies_raises_iff cp1252_world
                           (one_dep_checker, fresh_process))) (or_intror eq_refl)).
Defined.

(** ** When [run_all] returns *)




(** ** The telemetry calls of [check_gpu_memory] *)

(** X18.  [check_gpu_memory] makes no telemetry call when [pynvml] does not
    import; otherwise it starts the library, asks for the handle of the
    device index it was given and then for the memory of that handle,
    and makes no call after one that raised. *)
Theorem gpu_memory_calls (w : World) (device_index : Z) (s : SetupChecker * Process) :
  nv_calls (snd (state_after (check_gpu_memory w device_index) s))
  = (nv_calls (snd s)
     ++ match import_pynvml w with
        | Raised _ => []
        | Returned nvml =>
            CallInit
            :: match nvmlInit nvml with
               | Raised _ => []
               | Returned _ =>
                   CallGetHandleByIndex device_index
                   :: match nvmlDeviceGetHandleByIndex nvml device_index with
                      | Raised _ => []
                      | Returned h => [CallGetMemoryInfo h]
                      end
               end
        end)%list.
Proof.
  py_unfold.
  destruct (import_pynvml w) as [nvml|e0]; cbn [fst snd nv_calls];
    [|now rewrite app_nil_r].
  destruct (nvmlInit nvml) as [[]|e1]; cbn [fst snd nv_calls]; [|reflexivity].
  destruct (nvmlDeviceGetHandleByIndex nvml device_index) as [h|e2];
    cbn [fst snd nv_calls]; [|now rewrite <- app_assoc].
  py_cases; cbn [nv_calls]; now rewrite <- !app_assoc.
Qed.
